(** * SparksBot: the conversation state machine of [main.py]

    A shallow embedding of the Telegram intake bot: the two module-level
    dictionaries [user_states] and [user_data], the six message handlers
    and [finalize_question], written in a state-and-exception monad over
    the dictionaries and a trace of the outbound calls.

    Modelling decisions.
    - Python [int] is [Z]; [str] is [string] (the UTF-8 bytes of the text);
      a [dict] is a [gmap].
    - [bot.send_message], [bot.send_photo] and [requests.get] are calls to
      the outside world.  Whether one of them returns or raises is decided
      by an environment [Env] that sees the calls made so far, so that a
      property proved for every [Env] holds whatever the network does.
    - An exception leaves the dictionaries as they were when it was raised
      (they are module globals); the polling loop survives it and goes on
      with the next update.
    - Handlers run one at a time, each to completion. *)

From stdpp Require Import base option list gmap strings pretty.
From Stdlib Require Import ZArith String Ascii.

Local Open Scope Z_scope.
Local Open Scope string_scope.

(** ** Strings *)

Definition nl : string := String (ascii_of_nat 10) EmptyString.

(** [str.lower()].  The model changes the letters [A]-[Z] only.  Python
    also maps letters outside ASCII, but none of them to a character of
    [no], [none], [n], [http://] or [https://], the only texts a lowered
    body is compared with. *)
Definition lower_char (c : ascii) : ascii :=
  let n := nat_of_ascii c in
  if (Nat.leb 65 n && Nat.leb n 90)%bool then ascii_of_nat (n + 32) else c.

Fixpoint lower (s : string) : string :=
  match s with
  | EmptyString => EmptyString
  | String c s' => String (lower_char c) (lower s')
  end.

(** [s.startswith(p)] *)
Definition startswith (s p : string) : bool := String.prefix p s.

(** [s.startswith((p1, p2, ...))] *)
Definition startswith_any (s : string) (ps : list string) : bool :=
  existsb (startswith s) ps.

(** Truth value of a value that is [None] or a [str]. *)
Definition truthy (o : option string) : bool :=
  match o with
  | Some s => negb (String.eqb s EmptyString)
  | None => false
  end.

(** ** The types of [telebot.types] that the handlers touch *)

Module types.

Record User := mkUser {
  id : Z;
  first_name : string;
  last_name : option string;
  username : option string
}.

Record Chat := mkChat { chat_id : Z }.

Record PhotoSize := mkPhotoSize { file_id : string }.

Record Message := mkMessage {
  from_user : User;
  chat : Chat;
  text : string;
  photo : list PhotoSize
}.

Record KeyboardButton := mkKeyboardButton { button_text : string }.

Record ReplyKeyboardMarkup := mkReplyKeyboardMarkup {
  resize_keyboard : bool;
  one_time_keyboard : bool;
  keyboard : list KeyboardButton
}.

(** [markup.add(button)] *)
Definition add (markup : ReplyKeyboardMarkup) (b : KeyboardButton)
  : ReplyKeyboardMarkup :=
  {| resize_keyboard := resize_keyboard markup;
     one_time_keyboard := one_time_keyboard markup;
     keyboard := keyboard markup ++ [b] |}.

End types.

(** ** Calls to the outside world *)

(** The [photo] argument of [send_photo]: a file id of the platform, or
    [BytesIO(content)]. *)
Inductive PhotoArg :=
| FileId (file_id : string)
| BytesIO (content : string).

Inductive Call :=
| SendMessage (chat_id : Z) (text : string)
    (reply_markup : option types.ReplyKeyboardMarkup)
    (parse_mode : option string)
| SendPhoto (chat_id : Z) (photo : PhotoArg) (caption : string)
| RequestsGet (url : string)
| LoggerError.

(** A call together with whether it returned ([true]) or raised. *)
Record Effect := mkEffect { call : Call; returned : bool }.

Record Response := mkResponse { status_code : Z; content : string }.

(** The configuration and the behaviour of the network.  Both oracles see
    the effects so far. *)
Record Env := mkEnv {
  ADMIN_USER_ID : Z;
  delivers : list Effect -> Call -> bool;
  requests_get : list Effect -> string -> option Response
}.

(** ** The store and the monad *)

Definition STATE_QUESTION : Z := 1.
Definition STATE_DESCRIPTION : Z := 2.
Definition STATE_IMAGE : Z := 3.

Record World := mkWorld {
  user_states : gmap Z Z;
  user_data : gmap Z (gmap string string);
  trace : list Effect
}.

Definition initial : World :=
  {| user_states := ∅; user_data := ∅; trace := [] |}.

Inductive exn := KeyError | IndexError | ApiException | RequestException.

Inductive result (A : Type) :=
| Ok (a : A)
| Raise (e : exn).
Arguments Ok {A} a.
Arguments Raise {A} e.

Definition M (A : Type) : Type := World -> result A * World.

#[global] Instance M_ret : MRet M := fun A a w => (Ok a, w).

#[global] Instance M_bind : MBind M := fun A B f m w =>
  match m w with
  | (Ok a, w') => f a w'
  | (Raise e, w') => (Raise e, w')
  end.

Definition raise {A} (e : exn) : M A := fun w => (Raise e, w).

(** [try: body  except Exception: handler] *)
Definition try_except {A} (body : M A) (handler : exn -> M A) : M A :=
  fun w =>
    match body w with
    | (Ok a, w') => (Ok a, w')
    | (Raise e, w') => handler e w'
    end.

Definition log_effect (c : Call) (ok : bool) (w : World) : World :=
  {| user_states := user_states w;
     user_data := user_data w;
     trace := trace w ++ [mkEffect c ok] |}.

Definition is_some {A} (o : option A) : bool :=
  match o with Some _ => true | None => false end.

(** *** Operations on the two dictionaries *)

(** [user_id in user_states] *)
Definition states_contains (user_id : Z) : M bool :=
  fun w => (Ok (is_some (user_states w !! user_id)), w).

(** [user_states[user_id]] *)
Definition states_getitem (user_id : Z) : M Z :=
  fun w =>
    match user_states w !! user_id with
    | Some s => (Ok s, w)
    | None => (Raise KeyError, w)
    end.

(** [user_states[user_id] = s] *)
Definition states_setitem (user_id : Z) (s : Z) : M unit :=
  fun w =>
    (Ok tt, {| user_states := <[user_id := s]> (user_states w);
               user_data := user_data w;
               trace := trace w |}).

(** [del user_states[user_id]] *)
Definition states_delitem (user_id : Z) : M unit :=
  fun w =>
    match user_states w !! user_id with
    | Some _ =>
        (Ok tt, {| user_states := delete user_id (user_states w);
                   user_data := user_data w;
                   trace := trace w |})
    | None => (Raise KeyError, w)
    end.

(** [user_id in user_data] *)
Definition data_contains (user_id : Z) : M bool :=
  fun w => (Ok (is_some (user_data w !! user_id)), w).

(** [user_data[user_id]] *)
Definition data_getitem (user_id : Z) : M (gmap string string) :=
  fun w =>
    match user_data w !! user_id with
    | Some d => (Ok d, w)
    | None => (Raise KeyError, w)
    end.

(** [user_data[user_id] = d] *)
Definition data_setitem (user_id : Z) (d : gmap string string) : M unit :=
  fun w =>
    (Ok tt, {| user_states := user_states w;
               user_data := <[user_id := d]> (user_data w);
               trace := trace w |}).

(** [del user_data[user_id]] *)
Definition data_delitem (user_id : Z) : M unit :=
  fun w =>
    match user_data w !! user_id with
    | Some _ =>
        (Ok tt, {| user_states := user_states w;
                   user_data := delete user_id (user_data w);
                   trace := trace w |})
    | None => (Raise KeyError, w)
    end.

(** [user_data[user_id][key] = v]: the inner dictionary is looked up, then
    updated in place. *)
Definition field_setitem (user_id : Z) (key v : string) : M unit :=
  d ← data_getitem user_id;
  data_setitem user_id (<[key := v]> d).

(** [user_data[user_id].get(key, dflt)] *)
Definition field_get (user_id : Z) (key dflt : string) : M string :=
  d ← data_getitem user_id;
  mret (default dflt (d !! key)).

(** [key in user_data[user_id]] *)
Definition field_contains (user_id : Z) (key : string) : M bool :=
  d ← data_getitem user_id;
  mret (is_some (d !! key)).

(** [user_data[user_id][key]] *)
Definition field_getitem (user_id : Z) (key : string) : M string :=
  d ← data_getitem user_id;
  match d !! key with
  | Some v => mret v
  | None => raise KeyError
  end.

(** [l[-1]] *)
Definition last_item {A} (l : list A) : M A :=
  match last l with
  | Some x => mret x
  | None => raise IndexError
  end.

(** ** The texts *)

Definition welcome_message (first_name : string) : string :=
  "Hey " +:+ first_name +:+ ", welcome to Trepa Bot! ⚡️" +:+ nl +:+ nl +:+
  "Trepa is the world's first sentiment prediction platform powered by *prediction pools*, not markets." +:+ nl +:+ nl +:+ " " +:+
  "Got a question burning in your head? Use /sendspark to submit a *spark* — our experts will decode the collective signal behind it." +:+ nl +:+ nl +:+
  "Let’s make your curiosity count. ✨".

Definition help_text : string :=
  "🛠 *Need help?* Here's how to use Trepa Bot:" +:+ nl +:+ nl +:+
  "• /start – Introduction to Trepa and what this bot can do" +:+ nl +:+
  "• /sendspark – Submit a *spark* (your thought-provoking question)" +:+ nl +:+
  "• /cancel – Stop the current spark submission" +:+ nl +:+
  "• /help – See this guide again" +:+ nl +:+ nl +:+
  "*What’s a spark?*" +:+ nl +:+
  "It’s a signal you send to Trepa’s prediction pool — a hypothesis, a trend, a social whisper. " +:+
  "We help distill sentiment from it and surface insights before they go mainstream." +:+ nl +:+ nl +:+
  "When you use /sendspark, I’ll ask:" +:+ nl +:+
  "1. Your question" +:+ nl +:+
  "2. Some background/context" +:+ nl +:+
  "3. (Optional) An image or link that captures the vibe" +:+ nl +:+ nl +:+
  "Let’s turn collective sentiment into superpowers. 🔮".

Definition ask_question_text : string :=
  "Let's ignite a spark. 🔥" +:+ nl +:+ nl +:+
  "What’s your question or hypothesis?" +:+ nl +:+ nl +:+
  "Note: Trepa isn’t a fortune-teller. Avoid asking us to *predict the future*. " +:+
  "Instead, focus on ideas, trends, or moments where public sentiment might be shifting.".

Definition cancelled_text : string :=
  "No worries — your spark submission has been cancelled. 🔕" +:+ nl +:+ nl +:+
  "You can always light another one with /sendspark whenever inspiration strikes.".

Definition use_sendspark_text : string :=
  "To submit a question, please use the /sendspark command.".

Definition ask_description_text : string :=
  "Great question! 📌" +:+ nl +:+ nl +:+
  "Now give us a bit more context — where’s this coming from? A tweet? A trend? A gut feeling?" +:+ nl +:+
  "Tell us what inspired the spark.".

Definition ask_image_text : string :=
  "Thanks for the background! 🧠" +:+ nl +:+ nl +:+
  "Do you have an image or screenshot that captures the essence of this spark?" +:+ nl +:+ nl +:+
  "Drop the image link here (or upload a photo). If not, just type 'no'.".

Definition use_sendspark_first_text : string :=
  "To submit a question with an image, please use the /sendspark command first.".

Definition not_expecting_image_text : string :=
  "I wasn't expecting an image at this point. Please follow the prompts.".

Definition confirmation_text : string :=
  "🧠 Thanks! Your question has been submitted to Trepa HQ." +:+ nl +:+ nl +:+ "We’ll use it to spark community sentiment. " +:+
  "If it fits, it may show up on Trepa soon for others to weigh in." +:+ nl +:+ nl +:+ "Want to ask another one? Hit /sendspark anytime!".

(** The reply keyboard every handler builds: one [/sendspark] button. *)
Definition sendspark_markup : types.ReplyKeyboardMarkup :=
  types.add
    (types.mkReplyKeyboardMarkup true false [])
    (types.mkKeyboardButton "/sendspark").

(** The f-string that opens the notification to the admin. *)
Definition admin_header (user : types.User)
    (question_text description_text : string) : string :=
  "🌟 NEW SPARK RECEIVED 🌟" +:+ nl +:+ nl +:+
  "User: " +:+ types.first_name user +:+ " " +:+
  (if truthy (types.last_name user)
   then " " +:+ default EmptyString (types.last_name user)
   else EmptyString) +:+ " " +:+
  "(@" +:+
  (if truthy (types.username user)
   then default EmptyString (types.username user)
   else "no username") +:+ ")" +:+ nl +:+
  "User ID: " +:+ pretty (types.id user) +:+ nl +:+ nl +:+
  "Question: " +:+ question_text +:+ nl +:+ nl +:+
  "Description/Source: " +:+ description_text.

Definition additional_info_line (info : string) : string :=
  nl +:+ nl +:+ "Additional Info: " +:+ info.

Definition image_url_line (image_url : string) : string :=
  nl +:+ nl +:+ "Image URL: " +:+ image_url.

(** ** The handlers *)

Section Handlers.

Variable env : Env.

(** [bot.send_message(chat_id, text, reply_markup=..., parse_mode=...)] *)
Definition bot_send_message (chat_id : Z) (text : string)
    (reply_markup : option types.ReplyKeyboardMarkup)
    (parse_mode : option string) : M unit :=
  fun w =>
    let c := SendMessage chat_id text reply_markup parse_mode in
    if delivers env (trace w) c
    then (Ok tt, log_effect c true w)
    else (Raise ApiException, log_effect c false w).

(** [bot.send_photo(chat_id=..., photo=..., caption=...)] *)
Definition bot_send_photo (chat_id : Z) (photo : PhotoArg)
    (caption : string) : M unit :=
  fun w =>
    let c := SendPhoto chat_id photo caption in
    if delivers env (trace w) c
    then (Ok tt, log_effect c true w)
    else (Raise ApiException, log_effect c false w).

(** [requests.get(url)] *)
Definition requests_dot_get (url : string) : M Response :=
  fun w =>
    match requests_get env (trace w) url with
    | Some r => (Ok r, log_effect (RequestsGet url) true w)
    | None => (Raise RequestException, log_effect (RequestsGet url) false w)
    end.

(** [logger.error(...)] *)
Definition logger_error : M unit :=
  fun w => (Ok tt, log_effect LoggerError true w).

Definition start (message : types.Message) : M unit :=
  let markup := sendspark_markup in
  bot_send_message
    (types.chat_id (types.chat message))
    (welcome_message (types.first_name (types.from_user message)))
    (Some markup)
    (Some "Markdown").

Definition help_command (message : types.Message) : M unit :=
  bot_send_message
    (types.chat_id (types.chat message))
    help_text
    None
    (Some "Markdown").

Definition send_spark (message : types.Message) : M unit :=
  let user_id := types.id (types.from_user message) in
  states_setitem user_id STATE_QUESTION;;
  data_setitem user_id ∅;;
  bot_send_message
    (types.chat_id (types.chat message))
    ask_question_text
    None None.

Definition cancel (message : types.Message) : M unit :=
  let user_id := types.id (types.from_user message) in
  in_states ← states_contains user_id;
  (if in_states : bool then states_delitem user_id else mret tt);;
  in_data ← data_contains user_id;
  (if in_data : bool then data_delitem user_id else mret tt);;
  let markup := sendspark_markup in
  bot_send_message
    (types.chat_id (types.chat message))
    cancelled_text
    (Some markup)
    None.

Definition finalize_question (message : types.Message) (user_id : Z)
    (has_image has_additional_info : bool) : M unit :=
  let user := types.from_user message in
  question_text ← field_get user_id "question" "No question provided";
  description_text ←
    field_get user_id "description" "No description provided";
  let admin_message := admin_header user question_text description_text in
  with_info ←
    (if has_additional_info
     then field_contains user_id "additional_info"
     else mret false);
  admin_message ←
    (if with_info : bool
     then info ← field_getitem user_id "additional_info";
          mret (admin_message +:+ additional_info_line info)
     else mret admin_message);
  has_image_id ← field_contains user_id "image_id";
  (if has_image_id : bool then
     image_id ← field_getitem user_id "image_id";
     bot_send_photo (ADMIN_USER_ID env) (FileId image_id) admin_message
   else
     has_image_url ← field_contains user_id "image_url";
     if has_image_url : bool then
       image_url ← field_getitem user_id "image_url";
       let admin_message := admin_message +:+ image_url_line image_url in
       try_except
         (response ← requests_dot_get image_url;
          if (status_code response =? 200)%Z
          then bot_send_photo (ADMIN_USER_ID env)
                 (BytesIO (content response)) admin_message
          else bot_send_message (ADMIN_USER_ID env) admin_message
                 None None)
         (fun e =>
            logger_error;;
            bot_send_message (ADMIN_USER_ID env) admin_message None None)
     else
       bot_send_message (ADMIN_USER_ID env) admin_message None None);;
  let markup := sendspark_markup in
  bot_send_message
    (types.chat_id (types.chat message))
    confirmation_text
    (Some markup)
    None;;
  in_states ← states_contains user_id;
  (if in_states : bool then states_delitem user_id else mret tt);;
  in_data ← data_contains user_id;
  (if in_data : bool then data_delitem user_id else mret tt).

Definition handle_messages (message : types.Message) : M unit :=
  let user_id := types.id (types.from_user message) in
  in_states ← states_contains user_id;
  if negb in_states : bool then
    let markup := sendspark_markup in
    bot_send_message
      (types.chat_id (types.chat message))
      use_sendspark_text
      (Some markup)
      None
  else
    state ← states_getitem user_id;
    if (state =? STATE_QUESTION)%Z then
      field_setitem user_id "question" (types.text message);;
      states_setitem user_id STATE_DESCRIPTION;;
      bot_send_message
        (types.chat_id (types.chat message))
        ask_description_text
        None None
    else if (state =? STATE_DESCRIPTION)%Z then
      field_setitem user_id "description" (types.text message);;
      states_setitem user_id STATE_IMAGE;;
      bot_send_message
        (types.chat_id (types.chat message))
        ask_image_text
        None None
    else if (state =? STATE_IMAGE)%Z then
      let text := lower (types.text message) in
      if bool_decide (text ∈ ["no"; "none"; "n"]) then
        finalize_question message user_id false false
      else if startswith_any text ["http://"; "https://"] then
        field_setitem user_id "image_url" (types.text message);;
        finalize_question message user_id true false
      else
        field_setitem user_id "additional_info" (types.text message);;
        finalize_question message user_id false true
    else mret tt.

Definition handle_photo (message : types.Message) : M unit :=
  let user_id := types.id (types.from_user message) in
  in_states ← states_contains user_id;
  if negb in_states : bool then
    let markup := sendspark_markup in
    bot_send_message
      (types.chat_id (types.chat message))
      use_sendspark_first_text
      (Some markup)
      None
  else
    state ← states_getitem user_id;
    if (state =? STATE_IMAGE)%Z then
      largest ← last_item (types.photo message);
      field_setitem user_id "image_id" (types.file_id largest);;
      finalize_question message user_id true false
    else
      bot_send_message
        (types.chat_id (types.chat message))
        not_expecting_image_text
        None None.

(** *** The dispatch table of the decorators *)

(** An update, tagged with the handler the decorators select for it:
    the four commands, any other text, a photo. *)
Inductive Update :=
| CommandStart (message : types.Message)
| CommandHelp (message : types.Message)
| CommandSendspark (message : types.Message)
| CommandCancel (message : types.Message)
| Text (message : types.Message)
| Photo (message : types.Message).

Definition dispatch (u : Update) : M unit :=
  match u with
  | CommandStart m => start m
  | CommandHelp m => help_command m
  | CommandSendspark m => send_spark m
  | CommandCancel m => cancel m
  | Text m => handle_messages m
  | Photo m => handle_photo m
  end.

(** [bot.infinity_polling()]: the updates are handled in order; an
    exception of a handler ends that handler only. *)
Definition process (w : World) (u : Update) : World := snd (dispatch u w).

Definition polling (us : list Update) (w : World) : World :=
  foldl process w us.

End Handlers.

(** ** Reading a run *)

(** What a computation returns or raises, and the world it leaves. *)
Abbreviation outcome m w := (fst (m w)).
Abbreviation after m w := (snd (m w)).

(** The two dictionaries of [w] and [w'] are the same. *)
Definition same_store (w w' : World) : Prop :=
  user_states w' = user_states w /\ user_data w' = user_data w.

(** [sub in s] for strings. *)
Fixpoint is_substring (sub s : string) : bool :=
  String.prefix sub s ||
  match s with
  | EmptyString => false
  | String _ s' => is_substring sub s'
  end.

(** The user has a session in which [key] is set. *)
Definition field_set (w : World) (user_id : Z) (key : string) : Prop :=
  exists d, user_data w !! user_id = Some d /\ is_Some (d !! key).

(** The key sets of the two dictionaries coincide. *)
Definition keys_coincide (w : World) : Prop :=
  forall user_id : Z,
    is_Some (user_states w !! user_id) <-> is_Some (user_data w !! user_id).

(** ** Concrete inputs used by the examples *)

Module Sample.

Definition alice : types.User :=
  types.mkUser 7 "Alice" None (Some "alice").

Definition text_message (body : string) : types.Message :=
  types.mkMessage alice (types.mkChat 7) body [].

Definition photo_message : types.Message :=
  types.mkMessage alice (types.mkChat 7) EmptyString
    [types.mkPhotoSize "small"; types.mkPhotoSize "large"].

(** Every call is delivered and every fetch answers 200. *)
Definition reliable : Env :=
  mkEnv 99 (fun _ _ => true) (fun _ _ => Some (mkResponse 200 "png")).

(** [send_photo] raises; everything else is delivered. *)
Definition photo_fails : Env :=
  mkEnv 99
    (fun _ c => match c with SendPhoto _ _ _ => false | _ => true end)
    (fun _ _ => Some (mkResponse 200 "png")).

(** The first [send_photo] raises; every other call is delivered. *)
Definition photo_fails_once : Env :=
  mkEnv 99
    (fun tr c =>
       match c with
       | SendPhoto _ _ _ =>
           existsb
             (fun e => match call e with SendPhoto _ _ _ => true | _ => false end)
             tr
       | _ => true
       end)
    (fun _ _ => Some (mkResponse 200 "png")).

(** The fetch raises and the admin cannot be reached. *)
Definition offline : Env :=
  mkEnv 99 (fun _ _ => false) (fun _ _ => None).

(** The fetch answers 404; every send is delivered. *)
Definition not_found : Env :=
  mkEnv 99 (fun _ _ => true) (fun _ _ => Some (mkResponse 404 EmptyString)).

(** The store after [/sendspark], a question and a description. *)
Definition awaiting_image : World :=
  polling reliable
    [CommandSendspark (text_message "/sendspark");
     Text (text_message "Will X happen?");
     Text (text_message "saw it on a forum")]
    initial.

(** The same store once a photo, or a link, has been stored. *)
Definition with_photo : World :=
  after (field_setitem 7 "image_id" "large") awaiting_image.

(** The fields of the sample user in [w]. *)
Definition session (w : World) : gmap string string :=
  default ∅ (user_data w !! 7).

Definition with_url : World :=
  after (field_setitem 7 "image_url" "http://example.com/a.png")
    awaiting_image.

End Sample.

(** ** [finalize_question] in two parts

    Once the session [d] of the user is known, [finalize_question] is the
    dispatch of the notification followed by the confirmation and the
    cleanup ([finalize_question_parts] below proves it). *)

(** The text of the notification, before the line for an image URL. *)
Definition notification (user : types.User) (d : gmap string string)
    (has_additional_info : bool) : string :=
  let admin_message :=
    admin_header user
      (default "No question provided" (d !! "question"))
      (default "No description provided" (d !! "description")) in
  if has_additional_info then
    match d !! "additional_info" with
    | Some info => admin_message +:+ additional_info_line info
    | None => admin_message
    end
  else admin_message.

(** Step 2: the notification goes to the admin. *)
Definition notify_admin (env : Env) (d : gmap string string)
    (admin_message : string) : M unit :=
  match d !! "image_id" with
  | Some image_id =>
      bot_send_photo env (ADMIN_USER_ID env) (FileId image_id) admin_message
  | None =>
      match d !! "image_url" with
      | Some image_url =>
          let admin_message := admin_message +:+ image_url_line image_url in
          try_except
            (response ← requests_dot_get env image_url;
             if (status_code response =? 200)%Z
             then bot_send_photo env (ADMIN_USER_ID env)
                    (BytesIO (content response)) admin_message
             else bot_send_message env (ADMIN_USER_ID env) admin_message
                    None None)
            (fun e =>
               logger_error;;
               bot_send_message env (ADMIN_USER_ID env) admin_message
                 None None)
      | None =>
          bot_send_message env (ADMIN_USER_ID env) admin_message None None
      end
  end.

(** Steps 3 and 4: the confirmation to the user, then the cleanup. *)
Definition confirm_and_clear (env : Env) (message : types.Message)
    (user_id : Z) : M unit :=
  bot_send_message env
    (types.chat_id (types.chat message))
    confirmation_text
    (Some sendspark_markup)
    None;;
  in_states ← states_contains user_id;
  (if in_states : bool then states_delitem user_id else mret tt);;
  in_data ← data_contains user_id;
  (if in_data : bool then data_delitem user_id else mret tt).

(** The confirmation, as an effect that was delivered. *)
Definition confirmation (message : types.Message) : Effect :=
  mkEffect
    (SendMessage (types.chat_id (types.chat message)) confirmation_text
       (Some sendspark_markup) None)
    true.

(** Every [send_message] is delivered. *)
Definition texts_delivered (env : Env) : Prop :=
  forall tr chat_id text markup mode,
    delivers env tr (SendMessage chat_id text markup mode) = true.

(** Every [send_photo] is delivered. *)
Definition photos_delivered (env : Env) : Prop :=
  forall tr chat_id photo caption,
    delivers env tr (SendPhoto chat_id photo caption) = true.

#[global] Instance PhotoArg_eq_dec : EqDecision PhotoArg.
Proof. solve_decision. Defined.
#[global] Instance KeyboardButton_eq_dec : EqDecision types.KeyboardButton.
Proof. solve_decision. Defined.
#[global] Instance ReplyKeyboardMarkup_eq_dec :
  EqDecision types.ReplyKeyboardMarkup.
Proof. solve_decision. Defined.
#[global] Instance Call_eq_dec : EqDecision Call.
Proof. solve_decision. Defined.
#[global] Instance Effect_eq_dec : EqDecision Effect.
Proof. solve_decision. Defined.

(** The world once [user_data[user_id][key] = v] has run on the session
    [d]. *)
Definition stored (w : World) (user_id : Z) (d : gmap string string)
    (key v : string) : World :=
  {| user_states := user_states w;
     user_data := <[user_id := <[key := v]> d]> (user_data w);
     trace := trace w |}.

(** The words that decline the image, and the prefixes of a link. *)
Definition skip_keywords : list string := ["no"; "none"; "n"].
Definition url_prefixes : list string := ["http://"; "https://"].

(** *** The steps of a session *)

Definition message_of (u : Update) : types.Message :=
  match u with
  | CommandStart m | CommandHelp m | CommandSendspark m | CommandCancel m
  | Text m | Photo m => m
  end.

(** The user an update comes from. *)
Definition sender (u : Update) : Z := types.id (types.from_user (message_of u)).

(** The keys a reply to the image request can set. *)
Definition image_keys : list string :=
  ["image_url"; "additional_info"; "image_id"].

(** What one update can do to the entries of its sender; the entries of
    the other users are never written. *)
Inductive transition (user_id : Z) (w w' : World) : Prop :=
| stays :
    same_store w w' ->
    transition user_id w w'
| begins :
    user_states w' = <[user_id := STATE_QUESTION]> (user_states w) ->
    user_data w' = <[user_id := ∅]> (user_data w) ->
    transition user_id w w'
| gets_question (d : gmap string string) (v : string) :
    user_states w !! user_id = Some STATE_QUESTION ->
    user_data w !! user_id = Some d ->
    user_states w' = <[user_id := STATE_DESCRIPTION]> (user_states w) ->
    user_data w' = <[user_id := <["question" := v]> d]> (user_data w) ->
    transition user_id w w'
| gets_description (d : gmap string string) (v : string) :
    user_states w !! user_id = Some STATE_DESCRIPTION ->
    user_data w !! user_id = Some d ->
    user_states w' = <[user_id := STATE_IMAGE]> (user_states w) ->
    user_data w' = <[user_id := <["description" := v]> d]> (user_data w) ->
    transition user_id w w'
| gets_image (d : gmap string string) (key v : string) :
    user_states w !! user_id = Some STATE_IMAGE ->
    user_data w !! user_id = Some d ->
    key ∈ image_keys ->
    user_states w' = user_states w ->
    user_data w' = <[user_id := <[key := v]> d]> (user_data w) ->
    transition user_id w w'
| ends :
    user_states w' = delete user_id (user_states w) ->
    user_data w' = delete user_id (user_data w) ->
    transition user_id w w'.

(** What holds of a session in state [s] with fields [d]. *)
Definition session_ok (s : Z) (d : gmap string string) : Prop :=
  (s = STATE_QUESTION \/ s = STATE_DESCRIPTION \/ s = STATE_IMAGE) /\
  (s = STATE_DESCRIPTION -> is_Some (d !! "question")) /\
  (s = STATE_IMAGE ->
   is_Some (d !! "question") /\ is_Some (d !! "description")).

Definition well_formed (w : World) : Prop :=
  keys_coincide w /\
  forall user_id s d,
    user_states w !! user_id = Some s ->
    user_data w !! user_id = Some d ->
    session_ok s d.

(** The effect is a text sent to the chat [chat_id]. *)
Definition sent_to (chat_id : Z) (e : Effect) : Prop :=
  exists text markup mode, call e = SendMessage chat_id text markup mode.

(** A call that sends something to a chat. *)
Definition is_send (c : Call) : bool :=
  match c with
  | SendMessage _ _ _ _ | SendPhoto _ _ _ => true
  | _ => false
  end.

(** A [send_photo] call. *)
Definition is_send_photo (c : Call) : bool :=
  match c with SendPhoto _ _ _ => true | _ => false end.

(** No [send_photo] among the effects. *)
Definition text_only (effects : list Effect) : Prop :=
  forall e, e ∈ effects -> is_send_photo (call e) = false.

#[global] Arguments admin_header : simpl never.
#[global] Arguments additional_info_line : simpl never.
#[global] Arguments image_url_line : simpl never.
#[global] Arguments String.append : simpl never.

Ltac in_list :=
  repeat first [apply list_elem_of_here | apply list_elem_of_further].

Ltac solve_text_only :=
  let e := fresh "e" in
  let He := fresh "He" in
  intros e He;
  repeat (apply elem_of_cons in He; destruct He as [-> | He];
          [reflexivity |]);
  by apply elem_of_nil in He.

Ltac unfold_monad :=
  unfold field_setitem, field_get, field_contains, field_getitem,
    last_item in *;
  unfold states_contains, states_getitem, states_setitem, states_delitem,
    data_contains, data_getitem, data_setitem, data_delitem,
    try_except, raise in *;
  unfold mbind, M_bind, mret, M_ret in *.

(** ** Basic facts about the monad and the primitives *)

Lemma same_store_refl w : same_store w w.
Proof. split; reflexivity. Qed.

Lemma same_store_log c b w : same_store w (log_effect c b w).
Proof. split; reflexivity. Qed.

Lemma send_message_after env chat_id text markup mode w :
  after (bot_send_message env chat_id text markup mode) w =
  log_effect (SendMessage chat_id text markup mode)
    (delivers env (trace w) (SendMessage chat_id text markup mode)) w.
Proof.
  unfold bot_send_message. by destruct (delivers _ _ _).
Qed.

Lemma send_message_outcome env chat_id text markup mode w :
  outcome (bot_send_message env chat_id text markup mode) w =
  if delivers env (trace w) (SendMessage chat_id text markup mode)
  then Ok tt else Raise ApiException.
Proof.
  unfold bot_send_message. by destruct (delivers _ _ _).
Qed.

(** ** The commands *)

(** C9. The [start] and [help] commands do not touch the session store:
    whatever the store holds and whether or not the reply is delivered,
    both dictionaries are the same afterwards. *)
Theorem start_help_keep_store (env : Env) (message : types.Message)
    (w : World) :
  same_store w (after (start env message) w) /\
  same_store w (after (help_command env message) w) /\
  same_store w (after (dispatch env (CommandStart message)) w) /\
  same_store w (after (dispatch env (CommandHelp message)) w).
Proof.
  unfold dispatch, start, help_command.
  rewrite !send_message_after.
  repeat split.
Qed.

(** C5. After [/sendspark] the user has a session in state
    [STATE_QUESTION] with no field set, whatever the store held before
    (no session, or one in any state with any fields) and whether or not
    the reply is delivered. *)
Theorem send_spark_fresh_session (env : Env) (message : types.Message)
    (w : World) :
  let user_id := types.id (types.from_user message) in
  let w' := after (send_spark env message) w in
  user_states w' !! user_id = Some STATE_QUESTION /\
  user_data w' !! user_id = Some ∅ /\
  (forall key, ~ field_set w' user_id key).
Proof.
  intros user_id w'.
  assert (Hs : user_states w' !! user_id = Some STATE_QUESTION).
  { subst w'. unfold send_spark, mbind, M_bind, states_setitem,
      data_setitem, bot_send_message. simpl.
    destruct (delivers _ _ _); simpl; apply lookup_insert_eq. }
  assert (Hd : user_data w' !! user_id = Some ∅).
  { subst w'. unfold send_spark, mbind, M_bind, states_setitem,
      data_setitem, bot_send_message. simpl.
    destruct (delivers _ _ _); simpl; apply lookup_insert_eq. }
  repeat split; try assumption.
  intros key [d [Hd' [v Hv]]].
  rewrite Hd in Hd'. injection Hd' as <-.
  by rewrite lookup_empty in Hv.
Qed.

(** ** Updates without a session, and photos at the wrong time *)

Lemma handle_messages_no_session env message w :
  user_states w !! types.id (types.from_user message) = None ->
  handle_messages env message w =
  bot_send_message env (types.chat_id (types.chat message))
    use_sendspark_text (Some sendspark_markup) None w.
Proof.
  intros H. unfold handle_messages. unfold_monad. by rewrite H.
Qed.

Lemma handle_photo_no_session env message w :
  user_states w !! types.id (types.from_user message) = None ->
  handle_photo env message w =
  bot_send_message env (types.chat_id (types.chat message))
    use_sendspark_first_text (Some sendspark_markup) None w.
Proof.
  intros H. unfold handle_photo. unfold_monad. by rewrite H.
Qed.

Lemma handle_photo_wrong_state env message w s :
  user_states w !! types.id (types.from_user message) = Some s ->
  s <> STATE_IMAGE ->
  handle_photo env message w =
  bot_send_message env (types.chat_id (types.chat message))
    not_expecting_image_text None None w.
Proof.
  intros H Hs. unfold handle_photo. unfold_monad.
  rewrite H. simpl. rewrite H.
  destruct (Z.eqb_spec s STATE_IMAGE); [contradiction | reflexivity].
Qed.

(** C8. For a user without a session, a text that is not one of the four
    commands and a photo are both answered by the prompt to use
    [/sendspark] (with the [/sendspark] button), and neither dictionary
    changes, so the user still has no session. *)
Theorem no_session_prompts_sendspark (env : Env) (message : types.Message)
    (w : World) :
  let user_id := types.id (types.from_user message) in
  let chat_id := types.chat_id (types.chat message) in
  user_states w !! user_id = None ->
  (exists delivered,
     trace (after (handle_messages env message) w) =
     (trace w ++
       [mkEffect
          (SendMessage chat_id use_sendspark_text (Some sendspark_markup) None)
          delivered])%list) /\
  (exists delivered,
     trace (after (handle_photo env message) w) =
     (trace w ++
       [mkEffect
          (SendMessage chat_id use_sendspark_first_text
             (Some sendspark_markup) None)
          delivered])%list) /\
  is_substring "please use the /sendspark command" use_sendspark_text = true /\
  is_substring "please use the /sendspark command" use_sendspark_first_text
    = true /\
  same_store w (after (handle_messages env message) w) /\
  same_store w (after (handle_photo env message) w) /\
  user_states (after (handle_messages env message) w) !! user_id = None /\
  user_states (after (handle_photo env message) w) !! user_id = None.
Proof.
  intros user_id chat_id H.
  rewrite (handle_messages_no_session env message w H).
  rewrite (handle_photo_no_session env message w H).
  rewrite !send_message_after.
  repeat split; eauto.
Qed.

Lemma no_session_prompts_sendspark_witness :
  user_states initial !! 7 = None /\
  same_store initial
    (after (handle_photo Sample.offline Sample.photo_message) initial).
Proof.
  split; [reflexivity |].
  apply (no_session_prompts_sendspark Sample.offline Sample.photo_message
           initial).
  reflexivity.
Defined.

(** C4 (as the code has it). A photo that arrives while the user is not
    in [STATE_IMAGE] changes neither dictionary.  With a session, the
    reply is the "not expecting an image" text; without one, it is the
    prompt to use [/sendspark] first. *)
Theorem photo_at_wrong_time (env : Env) (message : types.Message)
    (w : World) :
  let user_id := types.id (types.from_user message) in
  let chat_id := types.chat_id (types.chat message) in
  let w' := after (handle_photo env message) w in
  user_states w !! user_id <> Some STATE_IMAGE ->
  same_store w w' /\
  exists delivered,
    trace w' =
    (trace w ++
      [mkEffect
         (if is_some (user_states w !! user_id)
          then SendMessage chat_id not_expecting_image_text None None
          else SendMessage chat_id use_sendspark_first_text
                 (Some sendspark_markup) None)
         delivered])%list.
Proof.
  intros user_id chat_id w' H. subst w'.
  destruct (user_states w !! user_id) as [s|] eqn:Hs.
  - rewrite (handle_photo_wrong_state env message w s Hs) by congruence.
    rewrite send_message_after. simpl. split; [apply same_store_log | eauto].
  - rewrite (handle_photo_no_session env message w Hs).
    rewrite send_message_after. simpl. split; [apply same_store_log | eauto].
Qed.

Lemma photo_at_wrong_time_witness :
  user_states initial !! 7 <> Some STATE_IMAGE /\
  same_store initial
    (after (handle_photo Sample.reliable Sample.photo_message) initial).
Proof.
  assert (H : user_states initial !! 7 <> Some STATE_IMAGE) by discriminate.
  split; [exact H |].
  apply (photo_at_wrong_time Sample.reliable Sample.photo_message initial H).
Defined.

(** C4, counterexample. The user has no session, so the state is not
    [STATE_IMAGE]; the photo is answered, but not by the "not expecting
    an image" text. *)
Lemma photo_without_session_reply :
  user_states initial !! types.id (types.from_user Sample.photo_message)
    <> Some STATE_IMAGE /\
  trace (after (handle_photo Sample.reliable Sample.photo_message) initial) =
    [mkEffect
       (SendMessage 7 use_sendspark_first_text (Some sendspark_markup) None)
       true] /\
  use_sendspark_first_text <> not_expecting_image_text.
Proof.
  split; [discriminate |]. split; [reflexivity | discriminate].
Qed.

(** ** [finalize_question] *)

Lemma finalize_question_parts env message user_id has_image has_info w d :
  user_data w !! user_id = Some d ->
  finalize_question env message user_id has_image has_info w =
  (notify_admin env d (notification (types.from_user message) d has_info);;
   confirm_and_clear env message user_id) w.
Proof.
  intros Hd.
  unfold finalize_question, notify_admin, notification, confirm_and_clear.
  unfold_monad.
  destruct (d !! "additional_info") as [info|] eqn:Einfo,
    (d !! "image_id") as [image_id|] eqn:Eid,
    (d !! "image_url") as [image_url|] eqn:Eurl, has_info;
    repeat (progress (simpl; rewrite ?Hd, ?Einfo, ?Eid, ?Eurl));
    reflexivity.
Qed.

Lemma finalize_question_no_data env message user_id has_image has_info w :
  user_data w !! user_id = None ->
  finalize_question env message user_id has_image has_info w =
  (Raise KeyError, w).
Proof.
  intros Hd. unfold finalize_question. unfold_monad. simpl. by rewrite Hd.
Qed.

Lemma finalize_question_then env message user_id has_image has_info w d :
  user_data w !! user_id = Some d ->
  let step2 :=
    notify_admin env d (notification (types.from_user message) d has_info) w
  in
  finalize_question env message user_id has_image has_info w =
  match fst step2 with
  | Ok _ => confirm_and_clear env message user_id (snd step2)
  | Raise e => (Raise e, snd step2)
  end.
Proof.
  intros Hd. cbv zeta.
  rewrite (finalize_question_parts _ _ _ _ _ _ _ Hd).
  unfold mbind, M_bind. by destruct (notify_admin _ _ _ _) as [[[]|e] w1].
Qed.

Lemma confirm_and_clear_delivered env message user_id w :
  delivers env (trace w) (call (confirmation message)) = true ->
  outcome (confirm_and_clear env message user_id) w = Ok tt /\
  user_states (after (confirm_and_clear env message user_id) w) =
    delete user_id (user_states w) /\
  user_data (after (confirm_and_clear env message user_id) w) =
    delete user_id (user_data w) /\
  trace (after (confirm_and_clear env message user_id) w) =
    (trace w ++ [confirmation message])%list.
Proof.
  intros Hc. unfold confirm_and_clear, bot_send_message, confirmation in *.
  unfold_monad. simpl in *. rewrite Hc. simpl.
  destruct (user_states w !! user_id) eqn:Hs; simpl; rewrite ?Hs; simpl;
    destruct (user_data w !! user_id) eqn:Hd; simpl; rewrite ?Hd; simpl;
    repeat split; try reflexivity;
    symmetry; apply delete_id; assumption.
Qed.

Lemma confirm_and_clear_failed env message user_id w :
  delivers env (trace w) (call (confirmation message)) = false ->
  outcome (confirm_and_clear env message user_id) w = Raise ApiException /\
  same_store w (after (confirm_and_clear env message user_id) w) /\
  trace (after (confirm_and_clear env message user_id) w) =
    (trace w ++
     [mkEffect (call (confirmation message)) false])%list.
Proof.
  intros Hc. unfold confirm_and_clear, bot_send_message, confirmation in *.
  unfold_monad. simpl in *. rewrite Hc. simpl.
  repeat split.
Qed.

(** Step 2 sends and fetches; it never writes to the dictionaries. *)
Lemma notify_admin_same_store env d admin_message w :
  same_store w (after (notify_admin env d admin_message) w).
Proof.
  unfold notify_admin, bot_send_photo, bot_send_message, requests_dot_get,
    logger_error.
  unfold_monad.
  destruct (d !! "image_id"); simpl.
  { destruct (delivers _ _ _); apply same_store_log. }
  destruct (d !! "image_url"); simpl.
  2:{ destruct (delivers _ _ _); apply same_store_log. }
  destruct (requests_get _ _ _) as [r|]; simpl.
  2:{ destruct (delivers _ _ _); split; reflexivity. }
  destruct (status_code r =? 200)%Z; simpl;
    destruct (delivers _ _ _); simpl; try (split; reflexivity);
    destruct (delivers _ _ _); simpl; split; reflexivity.
Qed.

(** Step 2 only adds effects to the trace. *)
Lemma notify_admin_extends env d admin_message w :
  exists effects,
    trace (after (notify_admin env d admin_message) w) =
    (trace w ++ effects)%list.
Proof.
  unfold notify_admin, bot_send_photo, bot_send_message, requests_dot_get,
    logger_error.
  unfold_monad.
  destruct (d !! "image_id"); simpl.
  { destruct (delivers _ _ _); by eexists. }
  destruct (d !! "image_url"); simpl.
  2:{ destruct (delivers _ _ _); by eexists. }
  destruct (requests_get _ _ _) as [r|]; simpl.
  2:{ destruct (delivers _ _ _); simpl; eexists; by rewrite <- !app_assoc. }
  destruct (status_code r =? 200)%Z; simpl;
    repeat match goal with
           | |- context [delivers ?e ?t ?c] =>
               destruct (delivers e t c) eqn:?; simpl
           end;
    eexists; by rewrite <- !app_assoc.
Qed.

(** With the text sends delivered, step 2 can only fail on the
    [send_photo] of a stored photo: in the URL branch a failed fetch or a
    failed [send_photo] is caught and answered by a text. *)
Lemma notify_admin_returns env d admin_message w :
  texts_delivered env ->
  d !! "image_id" = None \/ photos_delivered env ->
  outcome (notify_admin env d admin_message) w = Ok tt.
Proof.
  intros Ht Hp.
  unfold notify_admin, bot_send_photo, bot_send_message, requests_dot_get,
    logger_error.
  unfold_monad.
  destruct (d !! "image_id") as [image_id|]; simpl.
  { destruct Hp as [Hp|Hp]; [discriminate |]. by rewrite Hp. }
  destruct (d !! "image_url"); simpl.
  2:{ by rewrite Ht. }
  destruct (requests_get _ _ _) as [r|]; simpl.
  2:{ by rewrite Ht. }
  destruct (status_code r =? 200)%Z; simpl.
  - destruct (delivers _ _ (SendPhoto _ _ _)); simpl; [reflexivity |].
    by rewrite Ht.
  - by rewrite Ht.
Qed.

(** What any run of [finalize_question] on an existing session does to the
    store: it returns and both entries of the user are gone, or it raises
    and nothing was written. *)
Lemma finalize_question_store env message user_id has_image has_info w d :
  user_data w !! user_id = Some d ->
  let run := finalize_question env message user_id has_image has_info w in
  (fst run = Ok tt /\
   user_states (snd run) = delete user_id (user_states w) /\
   user_data (snd run) = delete user_id (user_data w) /\
   exists effects,
     trace (snd run) = (trace w ++ effects ++ [confirmation message])%list) \/
  (fst run = Raise ApiException /\ same_store w (snd run)).
Proof.
  intros Hd run. subst run.
  rewrite (finalize_question_parts _ _ _ _ _ _ _ Hd).
  set (note := notification (types.from_user message) d has_info).
  pose proof (notify_admin_same_store env d note w) as [Hs2 Hd2].
  pose proof (notify_admin_extends env d note w) as [effects Hext].
  unfold mbind, M_bind.
  destruct (notify_admin env d note w) as [[[]|e] w1] eqn:Hrun; simpl in *.
  - destruct (delivers env (trace w1) (call (confirmation message)))
      eqn:Hc.
    + destruct (confirm_and_clear_delivered env message user_id w1 Hc)
        as (Ho & Hs & Hdd & Ht).
      left. rewrite Ho, Hs, Hdd, Ht, Hs2, Hd2, Hext.
      repeat split; try reflexivity.
      exists effects. by rewrite <- app_assoc.
    + destruct (confirm_and_clear_failed env message user_id w1 Hc)
        as (Ho & [Hs Hdd] & Ht).
      right. rewrite Ho. repeat split; congruence.
  - right. split; [| by split].
    revert Hrun.
    unfold notify_admin, bot_send_photo, bot_send_message,
      requests_dot_get, logger_error.
    unfold_monad.
    repeat (simpl; match goal with
            | |- context [match ?x with _ => _ end] => destruct x
            end);
      simpl; intros [= <- <-]; reflexivity.
Qed.

Lemma confirm_and_clear_trace env message user_id w :
  exists delivered,
    trace (after (confirm_and_clear env message user_id) w) =
    (trace w ++ [mkEffect (call (confirmation message)) delivered])%list.
Proof.
  destruct (delivers env (trace w) (call (confirmation message))) eqn:Hc.
  - exists true.
    by destruct (confirm_and_clear_delivered env message user_id w Hc)
      as (_ & _ & _ & ->).
  - exists false.
    by destruct (confirm_and_clear_failed env message user_id w Hc)
      as (_ & _ & ->).
Qed.

(** With the text sends delivered and, if a photo is stored, the
    [send_photo] too, [finalize_question] returns. *)
Lemma finalize_question_returns env message user_id has_image has_info w d :
  user_data w !! user_id = Some d ->
  texts_delivered env ->
  d !! "image_id" = None \/ photos_delivered env ->
  outcome (finalize_question env message user_id has_image has_info) w =
  Ok tt.
Proof.
  intros Hd Ht Hp.
  rewrite (finalize_question_parts _ _ _ _ _ _ _ Hd).
  pose proof (notify_admin_returns env d
    (notification (types.from_user message) d has_info) w Ht Hp) as Hn.
  unfold mbind, M_bind.
  destruct (notify_admin _ _ _ w) as [r w1]; simpl in Hn; subst r.
  assert (Hc : delivers env (trace w1) (call (confirmation message))
               = true) by apply Ht.
  by destruct (confirm_and_clear_delivered env message user_id w1 Hc)
    as (-> & _).
Qed.

(** C1 (as the code has it). On an existing session, when the text
    sends are delivered and, if a photo is stored, so is the
    [send_photo], [finalize_question] returns, the confirmation is the
    last thing it sends, and it is delivered, and the user is gone from
    both dictionaries.  Nothing is
    asked of the fetch nor of the [send_photo] of the URL branch: their
    failures are caught. *)
Theorem finalize_confirms_and_clears (env : Env) (message : types.Message)
    (user_id : Z) (has_image has_info : bool) (w : World)
    (d : gmap string string) :
  user_data w !! user_id = Some d ->
  texts_delivered env ->
  d !! "image_id" = None \/ photos_delivered env ->
  let run := finalize_question env message user_id has_image has_info w in
  fst run = Ok tt /\
  (exists effects,
     trace (snd run) = (trace w ++ effects ++ [confirmation message])%list) /\
  user_states (snd run) !! user_id = None /\
  user_data (snd run) !! user_id = None.
Proof.
  intros Hd Ht Hp run. subst run.
  pose proof (finalize_question_store env message user_id has_image has_info
                w d Hd) as H.
  cbv zeta in H. destruct H as [(Ho & Hs & Hdd & Hc) | (Ho & _)].
  - rewrite Hs, Hdd, !lookup_delete_eq. by repeat split.
  - rewrite (finalize_question_returns env message user_id has_image
               has_info w d Hd Ht Hp) in Ho.
    discriminate.
Qed.

Lemma finalize_confirms_and_clears_witness :
  user_data
    (after (finalize_question Sample.not_found
              (Sample.text_message "http://example.com/a.png") 7 true false)
       Sample.with_url) !! 7 = None.
Proof.
  destruct (finalize_confirms_and_clears Sample.not_found
              (Sample.text_message "http://example.com/a.png") 7 true false
              Sample.with_url (Sample.session Sample.with_url))
    as (_ & _ & _ & H).
  - vm_compute. reflexivity.
  - intros tr chat_id text markup mode. reflexivity.
  - left. vm_compute. reflexivity.
  - exact H.
Defined.

(** C1, counterexample. A photo is stored and [send_photo] raises:
    [finalize_question] raises with it, the failed call is the only
    effect, no confirmation is sent and the session is still there. *)
Lemma finalize_photo_send_fails :
  let w := Sample.with_photo in
  let run :=
    finalize_question Sample.photo_fails Sample.photo_message 7 true false w
  in
  fst run = Raise ApiException /\
  trace (snd run) =
    (trace w ++
     [mkEffect
        (SendPhoto 99 (FileId "large")
           (notification Sample.alice (Sample.session w) false))
        false])%list /\
  (confirmation Sample.photo_message ∉ trace (snd run)) /\
  user_states (snd run) !! 7 = Some STATE_IMAGE /\
  is_Some (user_data (snd run) !! 7).
Proof.
  cbv zeta. split; [| split; [| split; [| split]]].
  - vm_compute. reflexivity.
  - vm_compute. reflexivity.
  - apply (bool_decide_eq_false_1 _). vm_compute. reflexivity.
  - vm_compute. reflexivity.
  - vm_compute. eauto.
Qed.

(** ** The URL branch *)

Lemma prefix_refl (s : string) : String.prefix s s = true.
Proof.
  induction s as [|c s IH]; simpl; [reflexivity |].
  destruct (ascii_dec c c); [exact IH | contradiction].
Qed.

Lemma is_substring_refl (s : string) : is_substring s s = true.
Proof.
  destruct s as [|c s]; [reflexivity |].
  change (is_substring (String c s) (String c s))
    with (String.prefix (String c s) (String c s)
          || is_substring (String c s) s).
  by rewrite prefix_refl.
Qed.

Lemma is_substring_append (s p t : string) :
  is_substring s t = true -> is_substring s (p +:+ t) = true.
Proof.
  intros H. induction p as [|c p IH]; [exact H |].
  change (String c p +:+ t) with (String c (p +:+ t)).
  simpl. rewrite IH. apply orb_true_r.
Qed.

(** The line appended for a link ends with the link itself. *)
Lemma url_in_notification (note url : string) :
  is_substring url (note +:+ image_url_line url) = true.
Proof.
  unfold image_url_line.
  do 4 apply is_substring_append. apply is_substring_refl.
Qed.

(** With a link and no photo stored, a fetch that raises or answers
    anything but 200 makes step 2 send the text, and no photo. *)
Lemma notify_admin_url_fallback env d note w url :
  d !! "image_id" = None ->
  d !! "image_url" = Some url ->
  (forall r, requests_get env (trace w) url = Some r -> status_code r <> 200) ->
  exists effects,
    trace (after (notify_admin env d note) w) = (trace w ++ effects)%list /\
    (exists delivered,
       mkEffect
         (SendMessage (ADMIN_USER_ID env) (note +:+ image_url_line url)
            None None)
         delivered ∈ effects) /\
    text_only effects.
Proof.
  intros Hid Hurl Hfetch.
  unfold notify_admin, bot_send_photo, bot_send_message, requests_dot_get,
    logger_error.
  rewrite Hid, Hurl. unfold_monad.
  destruct (requests_get env (trace w) url) as [r|] eqn:Hget; simpl.
  - destruct (Z.eqb_spec (status_code r) 200) as [H200|_];
      [by apply Hfetch in H200 |].
    simpl.
    repeat match goal with
           | |- context [delivers ?e ?t ?c] =>
               destruct (delivers e t c) eqn:?; simpl
           end;
      eexists; (split; [by rewrite <- !app_assoc |]);
      (split; [eexists; in_list | solve_text_only]).
  - repeat match goal with
           | |- context [delivers ?e ?t ?c] =>
               destruct (delivers e t c) eqn:?; simpl
           end;
      eexists; (split; [by rewrite <- !app_assoc |]);
      (split; [eexists; in_list | solve_text_only]).
Qed.

(** C2 (as the code has it). The session holds a link and no photo, and
    the fetch raises or answers anything but 200.  Then the notification
    followed by the line with the link is sent to the admin as a text, and
    no photo is sent; the text contains the link as it was stored.  When
    the text sends are delivered, [finalize_question] returns without an
    exception. *)
Theorem url_fetch_failure_sends_text (env : Env) (message : types.Message)
    (user_id : Z) (has_image has_info : bool) (w : World)
    (d : gmap string string) (url : string) :
  user_data w !! user_id = Some d ->
  d !! "image_id" = None ->
  d !! "image_url" = Some url ->
  (forall r, requests_get env (trace w) url = Some r -> status_code r <> 200) ->
  let run := finalize_question env message user_id has_image has_info w in
  let text :=
    notification (types.from_user message) d has_info +:+ image_url_line url
  in
  (exists effects,
     trace (snd run) = (trace w ++ effects)%list /\
     (exists delivered,
        mkEffect (SendMessage (ADMIN_USER_ID env) text None None) delivered
          ∈ effects) /\
     text_only effects) /\
  is_substring url text = true /\
  (texts_delivered env -> fst run = Ok tt).
Proof.
  intros Hd Hid Hurl Hfetch run text. subst run text.
  split; [| split].
  - rewrite (finalize_question_parts _ _ _ _ _ _ _ Hd).
    set (note := notification (types.from_user message) d has_info).
    destruct (notify_admin_url_fallback env d note w url Hid Hurl Hfetch)
      as (effects & Htrace & Hsent & Htext).
    unfold mbind, M_bind.
    destruct (notify_admin env d note w) as [[[]|e] w1]; simpl in *.
    + destruct (confirm_and_clear_trace env message user_id w1)
        as [delivered Hc].
      exists (effects ++
              [mkEffect (call (confirmation message)) delivered])%list.
      rewrite Hc, Htrace, <- app_assoc. split; [reflexivity |].
      split.
      * destruct Hsent as [b Hb]. exists b. set_solver.
      * intros e [He | He]%elem_of_app; [by apply Htext |].
        apply list_elem_of_singleton in He. by subst e.
    + exists effects. by repeat split.
  - apply url_in_notification.
  - intros Ht.
    exact (finalize_question_returns env message user_id has_image has_info
             w d Hd Ht (or_introl Hid)).
Qed.

Lemma url_fetch_failure_sends_text_witness :
  is_substring "http://example.com/a.png"
    (notification Sample.alice (Sample.session Sample.with_url) false +:+
     image_url_line "http://example.com/a.png") = true /\
  (texts_delivered Sample.not_found ->
   outcome
     (finalize_question Sample.not_found
        (Sample.text_message "http://example.com/a.png") 7 true false)
     Sample.with_url = Ok tt).
Proof.
  apply (url_fetch_failure_sends_text Sample.not_found
           (Sample.text_message "http://example.com/a.png") 7 true false
           Sample.with_url (Sample.session Sample.with_url)
           "http://example.com/a.png").
  - vm_compute. reflexivity.
  - vm_compute. reflexivity.
  - vm_compute. reflexivity.
  - intros r [= <-]. discriminate.
Defined.

(** C2, counterexample. A link is stored, the fetch raises, and so does
    the [send_message] that falls back to text: the exception leaves
    [finalize_question], and [handle_messages] with it. *)
Lemma finalize_url_fallback_raises :
  let w := Sample.with_url in
  let message := Sample.text_message "http://example.com/a.png" in
  Sample.session w !! "image_url" = Some "http://example.com/a.png" /\
  requests_get Sample.offline (trace w) "http://example.com/a.png" = None /\
  outcome (finalize_question Sample.offline message 7 true false) w =
    Raise ApiException /\
  outcome (handle_messages Sample.offline message) Sample.awaiting_image =
    Raise ApiException.
Proof.
  cbv zeta. split; [| split; [| split]]; vm_compute; reflexivity.
Qed.

(** ** Texts while an image is awaited *)

Lemma field_setitem_stored user_id key v w d :
  user_data w !! user_id = Some d ->
  field_setitem user_id key v w = (Ok tt, stored w user_id d key v).
Proof. intros Hd. unfold field_setitem. unfold_monad. by rewrite Hd. Qed.

Lemma handle_messages_image env message w :
  let user_id := types.id (types.from_user message) in
  let body := types.text message in
  user_states w !! user_id = Some STATE_IMAGE ->
  handle_messages env message w =
  if bool_decide (lower body ∈ skip_keywords) then
    finalize_question env message user_id false false w
  else if startswith_any (lower body) url_prefixes then
    (field_setitem user_id "image_url" body;;
     finalize_question env message user_id true false) w
  else
    (field_setitem user_id "additional_info" body;;
     finalize_question env message user_id false true) w.
Proof.
  intros user_id body Hs. subst user_id body.
  unfold handle_messages, skip_keywords, url_prefixes.
  unfold states_contains, states_getitem, mbind, M_bind.
  cbv beta. rewrite Hs. cbn [is_some negb]. cbv beta iota. rewrite Hs.
  change (STATE_IMAGE =? STATE_QUESTION)%Z with false.
  change (STATE_IMAGE =? STATE_DESCRIPTION)%Z with false.
  change (STATE_IMAGE =? STATE_IMAGE)%Z with true.
  cbv beta iota zeta.
  destruct (bool_decide _); [reflexivity |].
  destruct (startswith_any _ _); reflexivity.
Qed.

Lemma notify_admin_no_image env d note :
  d !! "image_id" = None ->
  d !! "image_url" = None ->
  notify_admin env d note =
  bot_send_message env (ADMIN_USER_ID env) note None None.
Proof. intros Hid Hurl. unfold notify_admin. by rewrite Hid, Hurl. Qed.

(** The skip keywords on a session without stored image.  In
    [STATE_IMAGE], a text whose lowered body is [no], [none] or [n] goes
    straight to [finalize_question] with [has_image=False]: nothing is
    stored first.  On a session that holds neither a photo nor a link,
    the admin then gets the notification as a text, without an image and
    without an additional-info line. *)
Theorem skip_keyword_finalizes_without_image (env : Env)
    (message : types.Message) (w : World) :
  let user_id := types.id (types.from_user message) in
  user_states w !! user_id = Some STATE_IMAGE ->
  lower (types.text message) ∈ skip_keywords ->
  handle_messages env message w =
    finalize_question env message user_id false false w /\
  (forall d,
     user_data w !! user_id = Some d ->
     d !! "image_id" = None ->
     d !! "image_url" = None ->
     exists delivered rest,
       trace (after (handle_messages env message) w) =
       (trace w ++
        mkEffect
          (SendMessage (ADMIN_USER_ID env)
             (admin_header (types.from_user message)
                (default "No question provided" (d !! "question"))
                (default "No description provided" (d !! "description")))
             None None)
          delivered :: rest)%list /\
       text_only rest).
Proof.
  intros user_id Hs Hskip.
  assert (Hrun : handle_messages env message w =
                 finalize_question env message user_id false false w).
  { rewrite (handle_messages_image env message w Hs).
    by rewrite bool_decide_eq_true_2. }
  split; [exact Hrun |].
  intros d Hd Hid Hurl. rewrite Hrun.
  rewrite (finalize_question_parts _ _ _ _ _ _ _ Hd).
  rewrite (notify_admin_no_image env d _ Hid Hurl).
  unfold notification, mbind, M_bind.
  unfold bot_send_message at 1.
  destruct (delivers _ _ _); simpl.
  - match goal with
    | |- context [confirm_and_clear env message user_id ?w1] =>
        destruct (confirm_and_clear_trace env message user_id w1)
          as [delivered ->]
    end.
    simpl. eexists true, [_]. rewrite <- app_assoc.
    split; [reflexivity | solve_text_only].
  - exists false, []. split; [reflexivity | solve_text_only].
Qed.

Lemma skip_keyword_finalizes_without_image_witness :
  lower "NO" ∈ skip_keywords /\
  handle_messages Sample.reliable (Sample.text_message "NO")
    Sample.awaiting_image =
  finalize_question Sample.reliable (Sample.text_message "NO") 7 false false
    Sample.awaiting_image.
Proof.
  assert (H : lower "NO" ∈ skip_keywords)
    by (apply (bool_decide_eq_true_1 _); vm_compute; reflexivity).
  split; [exact H |].
  apply (skip_keyword_finalizes_without_image Sample.reliable
           (Sample.text_message "NO") Sample.awaiting_image).
  - vm_compute. reflexivity.
  - exact H.
Defined.

(** C6. [finalize_question] never reads [has_image]; it looks at what
    is stored.  The user sends a photo whose [send_photo] raises, so the
    session stays in [STATE_IMAGE] with the file id stored, then types
    [no].  The handler calls [finalize_question] with [has_image=False],
    and the stored photo is sent to the admin all the same: the update
    does not end in the branch without image. *)
Lemma skip_keyword_sends_stale_photo :
  let env := Sample.photo_fails_once in
  let w :=
    polling env
      [CommandSendspark (Sample.text_message "/sendspark");
       Text (Sample.text_message "Will X happen?");
       Text (Sample.text_message "saw it on a forum");
       Photo Sample.photo_message]
      initial in
  let run := handle_messages env (Sample.text_message "no") w in
  user_states w !! 7 = Some STATE_IMAGE /\
  Sample.session w !! "image_id" = Some "large" /\
  lower "no" ∈ skip_keywords /\
  fst run = Ok tt /\
  drop (List.length (trace w)) (trace (snd run)) =
    [mkEffect
       (SendPhoto 99 (FileId "large")
          (admin_header Sample.alice "Will X happen?" "saw it on a forum"))
       true;
     confirmation (Sample.text_message "no")].
Proof.
  cbv zeta. split; [| split; [| split; [| split]]].
  - vm_compute. reflexivity.
  - vm_compute. reflexivity.
  - apply (bool_decide_eq_true_1 _). vm_compute. reflexivity.
  - vm_compute. reflexivity.
  - vm_compute. reflexivity.
Qed.

(** The four inputs the specification lists are skip keywords. *)
Example skip_keyword_inputs :
  Forall (fun body => lower body ∈ skip_keywords) ["no"; "NO"; "None"; "n"].
Proof.
  repeat constructor;
    apply (bool_decide_eq_true_1 _); vm_compute; reflexivity.
Qed.

(** What [finalize_question] adds to the trace comes after what step 2
    added. *)
Lemma finalize_question_after_notify env message user_id has_image has_info
    w d :
  user_data w !! user_id = Some d ->
  exists tail,
    trace
      (after (finalize_question env message user_id has_image has_info) w) =
    (trace
       (after
          (notify_admin env d
             (notification (types.from_user message) d has_info)) w) ++
     tail)%list.
Proof.
  intros Hd. rewrite (finalize_question_then _ _ _ _ _ _ _ Hd).
  destruct (notify_admin env d _ w) as [[[]|x] w1]; simpl.
  - destruct (confirm_and_clear_trace env message user_id w1)
      as [confirmed ->]. by eexists.
  - exists []. by rewrite app_nil_r.
Qed.

(** With a link and no photo stored, step 2 starts with the fetch of the
    link and then sends the admin the notification followed by the line
    with the link, as the caption of the downloaded photo or as a
    text. *)
Lemma notify_admin_url_dispatch env d note w url :
  d !! "image_id" = None ->
  d !! "image_url" = Some url ->
  exists fetched rest e,
    trace (after (notify_admin env d note) w) =
    (trace w ++ mkEffect (RequestsGet url) fetched :: rest)%list /\
    e ∈ rest /\
    (call e =
       SendMessage (ADMIN_USER_ID env) (note +:+ image_url_line url) None None
     \/ exists bytes,
          call e =
          SendPhoto (ADMIN_USER_ID env) (BytesIO bytes)
            (note +:+ image_url_line url)).
Proof.
  intros Hid Hurl.
  unfold notify_admin, bot_send_photo, bot_send_message, requests_dot_get,
    logger_error.
  rewrite Hid, Hurl. unfold_monad.
  destruct (requests_get env (trace w) url) as [r|]; simpl.
  - destruct (status_code r =? 200)%Z; simpl;
      repeat match goal with
             | |- context [delivers ?e ?t ?c] =>
                 destruct (delivers e t c) eqn:?; simpl
             end;
      eexists true, _, _;
      (split; [by rewrite <- !app_assoc |]);
      simpl; (split; [apply list_elem_of_here |]);
      first [by left | right; by eexists].
  - destruct (delivers _ _ _); simpl;
      eexists false, _, _;
      (split; [by rewrite <- !app_assoc |]);
      simpl; (split; [apply list_elem_of_further, list_elem_of_here |]);
      by left.
Qed.

(** [finalize_question] after a stored reply: on return the session is
    gone, on an exception it stays in [STATE_IMAGE] with the reply
    stored. *)
Lemma finalize_stored env message user_id has_image has_info w d key v :
  user_states w !! user_id = Some STATE_IMAGE ->
  let run :=
    finalize_question env message user_id has_image has_info
      (stored w user_id d key v) in
  (fst run = Ok tt ->
   user_states (snd run) !! user_id = None /\
   user_data (snd run) !! user_id = None) /\
  (fst run <> Ok tt ->
   user_states (snd run) !! user_id = Some STATE_IMAGE /\
   user_data (snd run) !! user_id = Some (<[key := v]> d)).
Proof.
  intros Hs. cbv zeta.
  set (kept := stored w user_id d key v).
  assert (Hd' : user_data kept !! user_id = Some (<[key := v]> d))
    by apply lookup_insert_eq.
  pose proof (finalize_question_store env message user_id has_image has_info
                kept _ Hd') as H.
  cbv zeta in H.
  destruct H as [(Hok & -> & -> & _) | (Hraise & -> & ->)].
  - split; [intros _; by rewrite !lookup_delete_eq | contradiction].
  - split; [rewrite Hraise; discriminate | intros _; by split].
Qed.

(** C3 (as the code has it). In [STATE_IMAGE], a text that is not a skip
    keyword is classified by the prefix of its lowered body.

    When the lowered body starts with [http://] or [https://], the body
    as typed is stored under [image_url] and [finalize_question] runs on
    it; on a session without a stored photo, the first thing it does is
    fetch the body as typed, and it then sends the admin the question
    and the description followed by the line with the body, as the
    caption of the downloaded photo or as a text.

    Otherwise the body is stored under [additional_info] and
    [finalize_question] runs on it; on a session without a stored photo
    or link, the admin is sent one text, the question and the description
    followed by the additional-info line with the body, and no image;
    the confirmation follows if that text is delivered.

    In both cases the session is gone when the handler returns and is
    kept in [STATE_IMAGE], with the body stored, when it raises; without
    a stored photo it returns whenever the text sends are delivered. *)
Theorem image_text_classified (env : Env) (message : types.Message)
    (w : World) (d : gmap string string) :
  let user_id := types.id (types.from_user message) in
  let body := types.text message in
  let is_url := startswith_any (lower body) url_prefixes in
  let key := if is_url then "image_url" else "additional_info" in
  let header :=
    admin_header (types.from_user message)
      (default "No question provided" (d !! "question"))
      (default "No description provided" (d !! "description")) in
  let run := handle_messages env message w in
  user_states w !! user_id = Some STATE_IMAGE ->
  user_data w !! user_id = Some d ->
  lower body ∉ skip_keywords ->
  run =
    finalize_question env message user_id is_url (negb is_url)
      (stored w user_id d key body) /\
  (is_url = true ->
   d !! "image_id" = None ->
   exists fetched rest e,
     trace (snd run) =
     (trace w ++ mkEffect (RequestsGet body) fetched :: rest)%list /\
     e ∈ rest /\
     (call e =
        SendMessage (ADMIN_USER_ID env) (header +:+ image_url_line body)
          None None
      \/ exists bytes,
           call e =
           SendPhoto (ADMIN_USER_ID env) (BytesIO bytes)
             (header +:+ image_url_line body))) /\
  (is_url = false ->
   d !! "image_id" = None ->
   d !! "image_url" = None ->
   exists delivered confirmed,
     trace (snd run) =
     (trace w ++
      mkEffect
        (SendMessage (ADMIN_USER_ID env)
           (header +:+ additional_info_line body) None None)
        delivered ::
      (if delivered : bool
       then [mkEffect (call (confirmation message)) confirmed]
       else []))%list) /\
  (fst run = Ok tt ->
   user_states (snd run) !! user_id = None /\
   user_data (snd run) !! user_id = None) /\
  (fst run <> Ok tt ->
   user_states (snd run) !! user_id = Some STATE_IMAGE /\
   user_data (snd run) !! user_id = Some (<[key := body]> d)) /\
  (texts_delivered env -> d !! "image_id" = None -> fst run = Ok tt).
Proof.
  intros user_id body is_url key header run Hs Hd Hskip.
  assert (Hrun : run =
                 finalize_question env message user_id is_url (negb is_url)
                   (stored w user_id d key body)).
  { subst run. rewrite (handle_messages_image env message w Hs).
    rewrite bool_decide_eq_false_2 by exact Hskip.
    fold user_id body is_url. subst key.
    unfold mbind, M_bind.
    destruct is_url; by rewrite (field_setitem_stored _ _ _ _ _ Hd). }
  set (kept := stored w user_id d key body) in *.
  assert (Hkept : user_data kept !! user_id = Some (<[key := body]> d))
    by apply lookup_insert_eq.
  assert (Hq : <[key := body]> d !! "question" = d !! "question")
    by (subst key; destruct is_url; by rewrite lookup_insert_ne).
  assert (Hdesc : <[key := body]> d !! "description" = d !! "description")
    by (subst key; destruct is_url; by rewrite lookup_insert_ne).
  assert (Hphoto : <[key := body]> d !! "image_id" = d !! "image_id")
    by (subst key; destruct is_url; by rewrite lookup_insert_ne).
  destruct (finalize_stored env message user_id is_url (negb is_url)
              w d key body Hs) as [Hgone Hkeep].
  fold kept in Hgone, Hkeep.
  rewrite Hrun. split; [reflexivity |].
  split; [| split; [| split; [exact Hgone | split; [exact Hkeep |]]]].
  - intros Hurl Hid. clear Hgone Hkeep. subst key.
    rewrite Hurl in *. simpl negb in *.
    destruct (finalize_question_after_notify env message user_id true false
                kept _ Hkept) as [tail ->].
    destruct (notify_admin_url_dispatch env (<["image_url" := body]> d)
                (notification (types.from_user message)
                   (<["image_url" := body]> d) false)
                kept body)
      as (fetched & rest & e & -> & He & Hcall);
      [by rewrite Hphoto | apply lookup_insert_eq |].
    exists fetched, (rest ++ tail)%list, e.
    split; [by rewrite <- app_assoc |].
    split; [apply elem_of_app; by left |].
    unfold notification in Hcall. rewrite Hq, Hdesc in Hcall. exact Hcall.
  - intros Hurl Hid Hnolink. clear Hgone Hkeep. subst key.
    rewrite Hurl in *. simpl negb in *.
    rewrite (finalize_question_then _ _ _ _ _ _ _ Hkept).
    rewrite notify_admin_no_image
      by (by rewrite lookup_insert_ne by discriminate).
    unfold notification.
    rewrite lookup_insert_eq, Hq, Hdesc. fold header.
    rewrite send_message_outcome, send_message_after.
    destruct (delivers _ _ _).
    + match goal with
      | |- context [confirm_and_clear env message user_id ?w1] =>
          destruct (confirm_and_clear_trace env message user_id w1)
            as [confirmed ->]
      end.
      exists true, confirmed. simpl. by rewrite <- app_assoc.
    + by exists false, false.
  - intros Ht Hid.
    apply (finalize_question_returns env message user_id is_url
             (negb is_url) kept _ Hkept Ht).
    left. by rewrite Hphoto.
Qed.

Lemma image_text_classified_witness :
  exists delivered confirmed,
    trace
      (after (handle_messages Sample.reliable
                (Sample.text_message "see the forum"))
         Sample.awaiting_image) =
    (trace Sample.awaiting_image ++
     mkEffect
       (SendMessage 99
          (admin_header Sample.alice
             (default "No question provided"
                (Sample.session Sample.awaiting_image !! "question"))
             (default "No description provided"
                (Sample.session Sample.awaiting_image !! "description"))
           +:+ additional_info_line "see the forum") None None)
       delivered ::
     (if delivered : bool
      then [mkEffect
              (call (confirmation (Sample.text_message "see the forum")))
              confirmed]
      else []))%list.
Proof.
  destruct (image_text_classified Sample.reliable
              (Sample.text_message "see the forum") Sample.awaiting_image
              (Sample.session Sample.awaiting_image))
    as (_ & _ & H & _).
  - vm_compute. reflexivity.
  - vm_compute. reflexivity.
  - apply (bool_decide_eq_false_1 _). vm_compute. reflexivity.
  - apply H; vm_compute; reflexivity.
Defined.

(** C3, counterexample. The body [HTTPS://EXAMPLE.COM/A.PNG] is no skip
    keyword and starts with neither [http://] nor [https://], yet it is
    stored as the link and fetched, and no additional info is stored. *)
Lemma uppercase_link_is_a_link :
  let body := "HTTPS://EXAMPLE.COM/A.PNG" in
  let message := Sample.text_message body in
  let failed := after (handle_messages Sample.offline message)
                  Sample.awaiting_image in
  let done := after (handle_messages Sample.reliable message)
                Sample.awaiting_image in
  user_states Sample.awaiting_image !! 7 = Some STATE_IMAGE /\
  (lower body ∉ skip_keywords) /\
  startswith_any body url_prefixes = false /\
  Sample.session failed !! "image_url" = Some body /\
  Sample.session failed !! "additional_info" = None /\
  mkEffect (RequestsGet body) true ∈ trace done.
Proof.
  cbv zeta. split; [| split; [| split; [| split; [| split]]]].
  - vm_compute. reflexivity.
  - apply (bool_decide_eq_false_1 _). vm_compute. reflexivity.
  - vm_compute. reflexivity.
  - vm_compute. reflexivity.
  - vm_compute. reflexivity.
  - apply (bool_decide_eq_true_1 _). vm_compute. reflexivity.
Qed.

(** ** One update is one transition *)

Lemma finalize_question_transition env message user_id has_image has_info w :
  let run := finalize_question env message user_id has_image has_info w in
  same_store w (snd run) \/
  (user_states (snd run) = delete user_id (user_states w) /\
   user_data (snd run) = delete user_id (user_data w)).
Proof.
  cbv zeta. destruct (user_data w !! user_id) as [d|] eqn:Hd.
  - destruct (finalize_question_store env message user_id has_image has_info
                w d Hd) as [(_ & Hs & Hdd & _) | (_ & Hsame)]; auto.
  - rewrite (finalize_question_no_data _ _ _ _ _ _ Hd). left.
    apply same_store_refl.
Qed.

Lemma send_spark_transition env message w :
  transition (types.id (types.from_user message)) w
    (after (send_spark env message) w).
Proof.
  apply begins; unfold send_spark, bot_send_message; unfold_monad; simpl;
    by destruct (delivers _ _ _).
Qed.

Lemma cancel_transition env message w :
  transition (types.id (types.from_user message)) w
    (after (cancel env message) w).
Proof.
  set (user_id := types.id (types.from_user message)).
  apply ends; unfold cancel, bot_send_message; fold user_id; unfold_monad;
    simpl;
    destruct (user_states w !! user_id) eqn:Hs; simpl; rewrite ?Hs; simpl;
    destruct (user_data w !! user_id) eqn:Hd; simpl; rewrite ?Hd; simpl;
    destruct (delivers _ _ _); simpl;
    try reflexivity; symmetry; by apply delete_id.
Qed.

(** After a stored reply to the image request, [finalize_question] either
    ends the session or leaves the reply stored. *)
Lemma store_then_finalize env message has_image has_info w d key :
  let user_id := types.id (types.from_user message) in
  user_states w !! user_id = Some STATE_IMAGE ->
  user_data w !! user_id = Some d ->
  key ∈ image_keys ->
  forall v,
    transition user_id w
      (after (field_setitem user_id key v;;
              finalize_question env message user_id has_image has_info) w).
Proof.
  intros user_id Hs Hd Hkey v.
  unfold mbind, M_bind at 1.
  rewrite (field_setitem_stored _ _ _ _ _ Hd).
  destruct (finalize_question_transition env message user_id has_image
              has_info (stored w user_id d key v)) as [[Hs' Hd'] | [Hs' Hd']].
  - by apply (gets_image _ _ _ d key v).
  - apply ends; [exact Hs' |].
    rewrite Hd'. simpl. apply delete_insert_eq.
Qed.

Lemma field_setitem_no_data user_id key v w :
  user_data w !! user_id = None ->
  field_setitem user_id key v w = (Raise KeyError, w).
Proof. intros Hd. unfold field_setitem. unfold_monad. by rewrite Hd. Qed.

Lemma handle_messages_session env message w s :
  let user_id := types.id (types.from_user message) in
  let body := types.text message in
  let chat_id := types.chat_id (types.chat message) in
  user_states w !! user_id = Some s ->
  handle_messages env message w =
  (if (s =? STATE_QUESTION)%Z then
     field_setitem user_id "question" body;;
     states_setitem user_id STATE_DESCRIPTION;;
     bot_send_message env chat_id ask_description_text None None
   else if (s =? STATE_DESCRIPTION)%Z then
     field_setitem user_id "description" body;;
     states_setitem user_id STATE_IMAGE;;
     bot_send_message env chat_id ask_image_text None None
   else if (s =? STATE_IMAGE)%Z then
     fun w => handle_messages env message w
   else mret tt) w.
Proof.
  intros user_id body chat_id Hs. subst user_id body chat_id.
  destruct (Z.eqb_spec s STATE_QUESTION) as [-> | H1];
    [| destruct (Z.eqb_spec s STATE_DESCRIPTION) as [-> | H2];
       [| destruct (Z.eqb_spec s STATE_IMAGE) as [-> | H3];
          [reflexivity |]]];
    unfold handle_messages at 1, states_contains, states_getitem,
      mbind, M_bind;
    cbv beta; rewrite Hs; cbn [is_some negb]; cbv beta iota; rewrite Hs;
    cbv beta iota; try reflexivity.
  apply Z.eqb_neq in H1, H2, H3. by rewrite H1, H2, H3.
Qed.

Lemma handle_messages_transition env message w :
  transition (types.id (types.from_user message)) w
    (after (handle_messages env message) w).
Proof.
  set (user_id := types.id (types.from_user message)).
  destruct (user_states w !! user_id) as [s|] eqn:Hs.
  2:{ rewrite (handle_messages_no_session env message w Hs).
      rewrite send_message_after. apply stays, same_store_log. }
  rewrite (handle_messages_session env message w s Hs). fold user_id.
  destruct (Z.eqb_spec s STATE_QUESTION) as [-> | H1].
  { destruct (user_data w !! user_id) as [d|] eqn:Hd.
    - apply (gets_question _ _ _ d (types.text message) Hs Hd);
        unfold mbind, M_bind;
        rewrite (field_setitem_stored _ _ _ _ _ Hd);
        unfold states_setitem, bot_send_message; simpl;
        by destruct (delivers _ _ _).
    - unfold mbind, M_bind at 1.
      rewrite (field_setitem_no_data _ _ _ _ Hd).
      apply stays, same_store_refl. }
  destruct (Z.eqb_spec s STATE_DESCRIPTION) as [-> | H2].
  { destruct (user_data w !! user_id) as [d|] eqn:Hd.
    - apply (gets_description _ _ _ d (types.text message) Hs Hd);
        unfold mbind, M_bind;
        rewrite (field_setitem_stored _ _ _ _ _ Hd);
        unfold states_setitem, bot_send_message; simpl;
        by destruct (delivers _ _ _).
    - unfold mbind, M_bind at 1.
      rewrite (field_setitem_no_data _ _ _ _ Hd).
      apply stays, same_store_refl. }
  destruct (Z.eqb_spec s STATE_IMAGE) as [-> | H3].
  2:{ apply stays, same_store_refl. }
  rewrite (handle_messages_image env message w Hs). fold user_id.
  destruct (bool_decide _).
  { destruct (finalize_question_transition env message user_id false false w)
      as [Hsame | [Hs' Hd']]; [by apply stays | by apply ends]. }
  destruct (user_data w !! user_id) as [d|] eqn:Hd.
  - destruct (startswith_any _ _);
      apply (store_then_finalize env message _ _ w d); try assumption;
      unfold image_keys; in_list.
  - destruct (startswith_any _ _);
      unfold mbind, M_bind at 1;
      rewrite (field_setitem_no_data _ _ _ _ Hd);
      apply stays, same_store_refl.
Qed.

Lemma handle_photo_transition env message w :
  transition (types.id (types.from_user message)) w
    (after (handle_photo env message) w).
Proof.
  set (user_id := types.id (types.from_user message)).
  destruct (user_states w !! user_id) as [s|] eqn:Hs.
  2:{ rewrite (handle_photo_no_session env message w Hs).
      rewrite send_message_after. apply stays, same_store_log. }
  destruct (decide (s = STATE_IMAGE)) as [-> | Hne].
  2:{ rewrite (handle_photo_wrong_state env message w s Hs Hne).
      rewrite send_message_after. apply stays, same_store_log. }
  unfold handle_photo, states_contains, states_getitem, last_item.
  fold user_id. unfold mbind at 1 2, M_bind at 1 2.
  cbv beta. rewrite Hs. cbn [is_some negb]. cbv beta iota. rewrite Hs.
  change (STATE_IMAGE =? STATE_IMAGE)%Z with true. cbv beta iota.
  unfold mbind at 1, M_bind at 1.
  destruct (last (types.photo message)) as [largest|].
  2:{ apply stays, same_store_refl. }
  unfold mret, M_ret. cbv beta iota.
  destruct (user_data w !! user_id) as [d|] eqn:Hd.
  - apply (store_then_finalize env message _ _ w d); try assumption.
    unfold image_keys; in_list.
  - unfold mbind, M_bind at 1.
    rewrite (field_setitem_no_data _ _ _ _ Hd).
    apply stays, same_store_refl.
Qed.

Lemma dispatch_transition env u w :
  transition (sender u) w (process env w u).
Proof.
  unfold process, sender.
  destruct u as [m | m | m | m | m | m]; simpl.
  - unfold start. rewrite send_message_after. apply stays, same_store_log.
  - unfold help_command. rewrite send_message_after.
    apply stays, same_store_log.
  - apply send_spark_transition.
  - apply cancel_transition.
  - apply handle_messages_transition.
  - apply handle_photo_transition.
Qed.

(** ** Invariants of the store *)

Lemma transition_keys_coincide user_id w w' :
  keys_coincide w -> transition user_id w w' -> keys_coincide w'.
Proof.
  intros Hk Ht u. specialize (Hk u).
  destruct Ht as [[-> ->] | -> -> | d v _ _ -> -> | d v _ _ -> ->
                  | d key v Hs Hd _ -> -> | -> ->];
    try exact Hk;
    destruct (decide (user_id = u)) as [<- | Hne];
    rewrite ?lookup_insert_eq, ?lookup_delete_eq;
    rewrite ?lookup_insert_ne, ?lookup_delete_ne by exact Hne;
    try exact Hk;
    try (split; intros _; eauto; fail);
    try (split; intros [? [=]]; fail).
Qed.

Lemma transition_well_formed user_id w w' :
  well_formed w -> transition user_id w w' -> well_formed w'.
Proof.
  intros [Hk Hok] Ht.
  split; [by apply (transition_keys_coincide user_id w) |].
  intros u s' d'.
  destruct Ht as [[-> ->] | -> -> | d v Hs Hd -> -> | d v Hs Hd -> ->
                  | d key v Hs Hd Hkey -> -> | -> ->];
    try (apply Hok);
    destruct (decide (user_id = u)) as [<- | Hne];
    rewrite ?lookup_insert_eq, ?lookup_delete_eq;
    rewrite ?lookup_insert_ne, ?lookup_delete_ne by exact Hne;
    try (apply Hok); try discriminate.
  - intros [= <-] [= <-]. unfold session_ok.
    split; [auto |]. split; discriminate.
  - intros [= <-] [= <-]. unfold session_ok.
    split; [auto |]. split; [| discriminate].
    intros _. rewrite lookup_insert_eq. eauto.
  - intros [= <-] [= <-]. unfold session_ok.
    destruct (Hok _ _ _ Hs Hd) as (_ & Hq & _).
    split; [auto |]. split; [discriminate |].
    intros _. rewrite lookup_insert_eq, lookup_insert_ne by discriminate.
    split; eauto.
  - rewrite Hs. intros [= <-] [= <-].
    destruct (Hok _ _ _ Hs Hd) as (Hstate & _ & Hboth).
    destruct (Hboth eq_refl) as [Hq Hdesc].
    split; [exact Hstate |]. split; [discriminate |].
    intros _.
    unfold image_keys in Hkey.
    rewrite !elem_of_cons in Hkey.
    destruct Hkey as [-> | [-> | [-> | Hnil]]];
      [| | | by apply elem_of_nil in Hnil];
      rewrite !lookup_insert_ne by discriminate; by split.
Qed.

Lemma initial_well_formed : well_formed initial.
Proof.
  split.
  - intros u. simpl. rewrite !lookup_empty. split; intros [? [=]].
  - intros u s d. simpl. rewrite lookup_empty. discriminate.
Qed.

Lemma polling_snoc env us u w :
  polling env (us ++ [u]) w = process env (polling env us w) u.
Proof. unfold polling. by rewrite foldl_snoc. Qed.

(** Whatever the updates and whatever the network does, the store stays
    well formed. *)
Lemma polling_well_formed env us w :
  well_formed w -> well_formed (polling env us w).
Proof.
  intros Hw. induction us as [|u us IH] using rev_ind; [exact Hw |].
  rewrite polling_snoc.
  exact (transition_well_formed _ _ _ IH (dispatch_transition env u _)).
Qed.

(** A step that sets [description] where it was not set finds [question]
    already set. *)
Lemma description_after_question sender_id user_id w w' :
  well_formed w ->
  transition sender_id w w' ->
  field_set w' user_id "description" ->
  ~ field_set w user_id "description" ->
  field_set w user_id "question".
Proof.
  intros [Hk Hok] Ht (d' & Hd' & Hdesc) Hnot.
  destruct Ht as [[_ Hdata] | _ Hdata | d v Hs Hd _ Hdata
                  | d v Hs Hd _ Hdata | d key v Hs Hd Hkey _ Hdata
                  | _ Hdata];
    rewrite Hdata in Hd'; clear Hdata.
  - exfalso. apply Hnot. by exists d'.
  - exfalso. destruct (decide (sender_id = user_id)) as [<- | Hne].
    + rewrite lookup_insert_eq in Hd'. injection Hd' as <-.
      rewrite lookup_empty in Hdesc. by destruct Hdesc.
    + rewrite lookup_insert_ne in Hd' by exact Hne.
      apply Hnot. by exists d'.
  - exfalso. apply Hnot.
    destruct (decide (sender_id = user_id)) as [<- | Hne].
    + rewrite lookup_insert_eq in Hd'. injection Hd' as <-.
      rewrite lookup_insert_ne in Hdesc by discriminate. by exists d.
    + rewrite lookup_insert_ne in Hd' by exact Hne. by exists d'.
  - destruct (decide (sender_id = user_id)) as [<- | Hne].
    + exists d. split; [exact Hd |].
      by destruct (Hok _ _ _ Hs Hd) as (_ & Hq & _); apply Hq.
    + exfalso. rewrite lookup_insert_ne in Hd' by exact Hne.
      apply Hnot. by exists d'.
  - exfalso. apply Hnot.
    destruct (decide (sender_id = user_id)) as [<- | Hne].
    + rewrite lookup_insert_eq in Hd'. injection Hd' as <-.
      exists d. split; [exact Hd |].
      unfold image_keys in Hkey. rewrite !elem_of_cons in Hkey.
      destruct Hkey as [-> | [-> | [-> | Hnil]]];
        [| | | by apply elem_of_nil in Hnil];
        by rewrite lookup_insert_ne in Hdesc by discriminate.
    + rewrite lookup_insert_ne in Hd' by exact Hne. by exists d'.
  - exfalso. destruct (decide (sender_id = user_id)) as [<- | Hne].
    + by rewrite lookup_delete_eq in Hd'.
    + rewrite lookup_delete_ne in Hd' by exact Hne.
      apply Hnot. by exists d'.
Qed.

(** C7. Start from the empty store and handle any sequence of updates,
    under any behaviour of the network.  A user whose state is
    [STATE_IMAGE] has a session in which both [question] and
    [description] are set.  And the question comes first: an update that
    sets [description] where it was not set finds [question] already
    set. *)
Theorem awaiting_image_has_question_and_description (env : Env)
    (us : list Update) (user_id : Z) :
  let w := polling env us initial in
  (user_states w !! user_id = Some STATE_IMAGE ->
   field_set w user_id "question" /\ field_set w user_id "description") /\
  (forall u,
     field_set (process env w u) user_id "description" ->
     ~ field_set w user_id "description" ->
     field_set w user_id "question").
Proof.
  intros w.
  assert (Hw : well_formed w)
    by apply polling_well_formed, initial_well_formed.
  split.
  - intros Hs. destruct Hw as [Hk Hok].
    destruct (proj1 (Hk user_id)) as [d Hd]; [by rewrite Hs |].
    destruct (Hok _ _ _ Hs Hd) as (_ & _ & Hboth).
    destruct (Hboth eq_refl) as [Hq Hdesc].
    split; by exists d.
  - intros u.
    exact (description_after_question (sender u) user_id w _ Hw
             (dispatch_transition env u w)).
Qed.

Lemma awaiting_image_has_question_and_description_witness :
  user_states Sample.awaiting_image !! 7 = Some STATE_IMAGE /\
  field_set Sample.awaiting_image 7 "question" /\
  field_set Sample.awaiting_image 7 "description".
Proof.
  assert (H : user_states Sample.awaiting_image !! 7 = Some STATE_IMAGE)
    by (vm_compute; reflexivity).
  split; [exact H |].
  exact (proj1 (awaiting_image_has_question_and_description Sample.reliable
                  [CommandSendspark (Sample.text_message "/sendspark");
                   Text (Sample.text_message "Will X happen?");
                   Text (Sample.text_message "saw it on a forum")] 7) H).
Defined.

(** ** No lookup misses a key *)

Lemma finalize_question_no_key_error env message user_id has_image has_info
    w :
  is_Some (user_data w !! user_id) ->
  outcome (finalize_question env message user_id has_image has_info) w <>
  Raise KeyError.
Proof.
  intros [d Hd].
  pose proof (finalize_question_store env message user_id has_image has_info
                w d Hd) as H.
  cbv zeta in H. destruct H as [(-> & _) | (-> & _)]; discriminate.
Qed.

Lemma stored_has_data w user_id d key v :
  is_Some (user_data (stored w user_id d key v) !! user_id).
Proof. simpl. rewrite lookup_insert_eq. eauto. Qed.

Lemma handle_messages_no_key_error env message w :
  keys_coincide w ->
  outcome (handle_messages env message) w <> Raise KeyError.
Proof.
  intros Hk. set (user_id := types.id (types.from_user message)).
  destruct (user_states w !! user_id) as [s|] eqn:Hs.
  2:{ rewrite (handle_messages_no_session env message w Hs).
      rewrite send_message_outcome. by destruct (delivers _ _ _). }
  destruct (proj1 (Hk user_id)) as [d Hd]; [by rewrite Hs |].
  rewrite (handle_messages_session env message w s Hs). fold user_id.
  destruct (Z.eqb_spec s STATE_QUESTION) as [-> | H1].
  { unfold mbind, M_bind. rewrite (field_setitem_stored _ _ _ _ _ Hd).
    unfold states_setitem, bot_send_message. simpl.
    by destruct (delivers _ _ _). }
  destruct (Z.eqb_spec s STATE_DESCRIPTION) as [-> | H2].
  { unfold mbind, M_bind. rewrite (field_setitem_stored _ _ _ _ _ Hd).
    unfold states_setitem, bot_send_message. simpl.
    by destruct (delivers _ _ _). }
  destruct (Z.eqb_spec s STATE_IMAGE) as [-> | H3]; [| discriminate].
  rewrite (handle_messages_image env message w Hs). fold user_id.
  destruct (bool_decide _).
  { apply finalize_question_no_key_error. by rewrite Hd. }
  destruct (startswith_any _ _);
    unfold mbind, M_bind at 1;
    rewrite (field_setitem_stored _ _ _ _ _ Hd);
    apply finalize_question_no_key_error, stored_has_data.
Qed.

Lemma handle_photo_no_key_error env message w :
  keys_coincide w ->
  outcome (handle_photo env message) w <> Raise KeyError.
Proof.
  intros Hk. set (user_id := types.id (types.from_user message)).
  destruct (user_states w !! user_id) as [s|] eqn:Hs.
  2:{ rewrite (handle_photo_no_session env message w Hs).
      rewrite send_message_outcome. by destruct (delivers _ _ _). }
  destruct (decide (s = STATE_IMAGE)) as [-> | Hne].
  2:{ rewrite (handle_photo_wrong_state env message w s Hs Hne).
      rewrite send_message_outcome. by destruct (delivers _ _ _). }
  destruct (proj1 (Hk user_id)) as [d Hd]; [by rewrite Hs |].
  unfold handle_photo, states_contains, states_getitem, last_item.
  fold user_id. unfold mbind at 1 2, M_bind at 1 2.
  cbv beta. rewrite Hs. cbn [is_some negb]. cbv beta iota. rewrite Hs.
  change (STATE_IMAGE =? STATE_IMAGE)%Z with true. cbv beta iota.
  unfold mbind at 1, M_bind at 1.
  destruct (last (types.photo message)) as [largest|]; [| discriminate].
  unfold mret, M_ret. cbv beta iota.
  unfold mbind, M_bind at 1.
  rewrite (field_setitem_stored _ _ _ _ _ Hd).
  apply finalize_question_no_key_error, stored_has_data.
Qed.

Lemma cancel_no_key_error env message w :
  outcome (cancel env message) w <> Raise KeyError.
Proof.
  set (user_id := types.id (types.from_user message)).
  unfold cancel, bot_send_message; fold user_id; unfold_monad; simpl.
  destruct (user_states w !! user_id) eqn:Hs; simpl; rewrite ?Hs; simpl;
    destruct (user_data w !! user_id) eqn:Hd; simpl; rewrite ?Hd; simpl;
    by destruct (delivers _ _ _).
Qed.

Lemma dispatch_no_key_error env u w :
  keys_coincide w -> outcome (dispatch env u) w <> Raise KeyError.
Proof.
  intros Hk. destruct u as [m | m | m | m | m | m]; simpl.
  - unfold start. rewrite send_message_outcome. by destruct (delivers _ _ _).
  - unfold help_command. rewrite send_message_outcome.
    by destruct (delivers _ _ _).
  - unfold send_spark, bot_send_message. unfold_monad. simpl.
    by destruct (delivers _ _ _).
  - apply cancel_no_key_error.
  - by apply handle_messages_no_key_error.
  - by apply handle_photo_no_key_error.
Qed.

Lemma finalize_question_keys_coincide env message user_id has_image has_info
    w :
  keys_coincide w ->
  keys_coincide
    (after (finalize_question env message user_id has_image has_info) w).
Proof.
  intros Hk.
  destruct (finalize_question_transition env message user_id has_image
              has_info w) as [Hsame | [Hs Hd]].
  - by apply (transition_keys_coincide user_id w), stays.
  - by apply (transition_keys_coincide user_id w), ends.
Qed.

(** C10. The handlers keep the key sets of [user_states] and [user_data]
    equal: when they coincide before an update ([/start], [/help],
    [/sendspark], [/cancel], a text or a photo) they coincide after it,
    and also after [finalize_question] run on its own, whether the
    handler returns or raises.  Under that invariant no handler raises
    [KeyError]: every read of [user_data] after the test on
    [user_states] finds its key. *)
Theorem handlers_keep_keys_coincide (env : Env) (u : Update) (w : World)
    (message : types.Message) (user_id : Z) (has_image has_info : bool) :
  keys_coincide w ->
  keys_coincide (process env w u) /\
  outcome (dispatch env u) w <> Raise KeyError /\
  keys_coincide
    (after (finalize_question env message user_id has_image has_info) w) /\
  (is_Some (user_states w !! user_id) ->
   outcome (finalize_question env message user_id has_image has_info) w <>
   Raise KeyError).
Proof.
  intros Hk. split; [| split; [| split]].
  - exact (transition_keys_coincide _ _ _ Hk (dispatch_transition env u w)).
  - by apply dispatch_no_key_error.
  - by apply finalize_question_keys_coincide.
  - intros Hs. apply finalize_question_no_key_error. by apply Hk.
Qed.

Lemma handlers_keep_keys_coincide_witness :
  keys_coincide Sample.awaiting_image /\
  keys_coincide
    (process Sample.photo_fails Sample.awaiting_image
       (Photo Sample.photo_message)).
Proof.
  assert (H : keys_coincide Sample.awaiting_image).
  { apply (polling_well_formed Sample.reliable
             [CommandSendspark (Sample.text_message "/sendspark");
              Text (Sample.text_message "Will X happen?");
              Text (Sample.text_message "saw it on a forum")] initial).
    apply initial_well_formed. }
  split; [exact H |].
  exact (proj1 (handlers_keep_keys_coincide Sample.photo_fails
                  (Photo Sample.photo_message) Sample.awaiting_image
                  Sample.photo_message 7 true false H)).
Defined.

(** ** The scenario of the specification *)

(** [/sendspark], a question, a description, then [no]: the admin gets
    one text with the question and the description, the user gets the
    confirmation, and the session is gone. *)
Example scenario_without_image :
  let w := polling Sample.reliable [Text (Sample.text_message "no")]
             Sample.awaiting_image in
  drop (List.length (trace Sample.awaiting_image)) (trace w) =
    [mkEffect
       (SendMessage 99
          (admin_header Sample.alice "Will X happen?" "saw it on a forum")
          None None)
       true;
     confirmation (Sample.text_message "no")] /\
  user_states w !! 7 = None /\
  user_data w !! 7 = None.
Proof. cbv zeta. repeat split; vm_compute; reflexivity. Qed.

(** ** Cancelling *)

(** [cancel] is the reply, sent from the store without the sender. *)
Lemma cancel_run env message w :
  let user_id := types.id (types.from_user message) in
  cancel env message w =
  bot_send_message env (types.chat_id (types.chat message)) cancelled_text
    (Some sendspark_markup) None
    {| user_states := delete user_id (user_states w);
       user_data := delete user_id (user_data w);
       trace := trace w |}.
Proof.
  intros user_id. unfold cancel. fold user_id. unfold_monad. simpl.
  destruct (user_states w !! user_id) eqn:Hs; simpl; rewrite ?Hs; simpl;
    destruct (user_data w !! user_id) eqn:Hd; simpl; rewrite ?Hd; simpl;
    rewrite ?(delete_id (user_states w)) by exact Hs;
    rewrite ?(delete_id (user_data w)) by exact Hd;
    reflexivity.
Qed.

(** X1. [/cancel] removes the sender from both dictionaries, whatever was
    there (a session in any state, or none), and answers with the
    cancellation text once; it never raises [KeyError].  A second
    [/cancel] changes nothing more and is answered by the same text. *)
Theorem cancel_ends_session (env : Env) (message : types.Message)
    (w : World) :
  let user_id := types.id (types.from_user message) in
  let reply :=
    SendMessage (types.chat_id (types.chat message)) cancelled_text
      (Some sendspark_markup) None in
  let w' := after (cancel env message) w in
  let w'' := after (cancel env message) w' in
  user_states w' = delete user_id (user_states w) /\
  user_data w' = delete user_id (user_data w) /\
  (exists delivered,
     trace w' = (trace w ++ [mkEffect reply delivered])%list) /\
  outcome (cancel env message) w <> Raise KeyError /\
  same_store w' w'' /\
  (exists delivered,
     trace w'' = (trace w' ++ [mkEffect reply delivered])%list).
Proof.
  intros user_id reply w' w''. subst w'' w' reply.
  rewrite !cancel_run. fold user_id.
  rewrite !send_message_after, send_message_outcome. simpl.
  repeat split; eauto.
  - by destruct (delivers _ _ _).
  - apply delete_delete_eq.
  - apply delete_delete_eq.
Qed.

(** ** What an update can and cannot change *)

(** X2. An update never touches the entries of a user other than its
    sender, in either dictionary. *)
Theorem other_users_untouched (env : Env) (u : Update) (w : World)
    (user_id : Z) :
  user_id <> sender u ->
  user_states (process env w u) !! user_id = user_states w !! user_id /\
  user_data (process env w u) !! user_id = user_data w !! user_id.
Proof.
  intros Hne.
  destruct (dispatch_transition env u w)
    as [[-> ->] | -> -> | d v _ _ -> -> | d v _ _ -> ->
        | d key v _ _ _ -> -> | -> ->];
    rewrite ?lookup_insert_ne, ?lookup_delete_ne by congruence;
    by split.
Qed.

Lemma other_users_untouched_witness :
  user_data
    (process Sample.reliable Sample.awaiting_image
       (CommandCancel
          (types.mkMessage (types.mkUser 8 "Bob" None None) (types.mkChat 8)
             "/cancel" []))) !! 7 =
  user_data Sample.awaiting_image !! 7.
Proof.
  apply (other_users_untouched Sample.reliable
           (CommandCancel
              (types.mkMessage (types.mkUser 8 "Bob" None None)
                 (types.mkChat 8) "/cancel" []))
           Sample.awaiting_image 7).
  vm_compute. discriminate.
Defined.

(** X3. The state of the sender only moves forward.  After an update it
    is what it was, or the session is gone, or it is [STATE_QUESTION]
    (a fresh start), or it went from [STATE_QUESTION] to
    [STATE_DESCRIPTION], or from [STATE_DESCRIPTION] to [STATE_IMAGE]:
    no step is skipped and none is taken back. *)
Theorem state_moves_forward (env : Env) (u : Update) (w : World) :
  let s := user_states w !! sender u in
  let s' := user_states (process env w u) !! sender u in
  s' = s \/
  s' = None \/
  s' = Some STATE_QUESTION \/
  (s = Some STATE_QUESTION /\ s' = Some STATE_DESCRIPTION) \/
  (s = Some STATE_DESCRIPTION /\ s' = Some STATE_IMAGE).
Proof.
  cbv zeta.
  destruct (dispatch_transition env u w)
    as [[-> _] | -> _ | d v Hs _ -> _ | d v Hs _ -> _
        | d key v _ _ _ -> _ | -> _];
    rewrite ?lookup_insert_eq, ?lookup_delete_eq; auto 6.
Qed.

(** ** The first two answers *)

(** X4. In [STATE_QUESTION], the text is stored under [question] exactly
    as typed, the other fields are kept, the state becomes
    [STATE_DESCRIPTION] and the user is asked for the context once.  The
    store is updated whether or not that reply is delivered. *)
Theorem question_is_stored (env : Env) (message : types.Message)
    (w : World) (d : gmap string string) :
  let user_id := types.id (types.from_user message) in
  let w' := after (handle_messages env message) w in
  user_states w !! user_id = Some STATE_QUESTION ->
  user_data w !! user_id = Some d ->
  user_states w' = <[user_id := STATE_DESCRIPTION]> (user_states w) /\
  user_data w' =
    <[user_id := <["question" := types.text message]> d]> (user_data w) /\
  exists delivered,
    trace w' =
    (trace w ++
     [mkEffect
        (SendMessage (types.chat_id (types.chat message))
           ask_description_text None None)
        delivered])%list.
Proof.
  intros user_id w' Hs Hd. subst w'.
  rewrite (handle_messages_session env message w _ Hs). fold user_id.
  change (STATE_QUESTION =? STATE_QUESTION)%Z with true. cbv iota.
  unfold mbind, M_bind. rewrite (field_setitem_stored _ _ _ _ _ Hd).
  unfold states_setitem, bot_send_message. simpl.
  destruct (delivers _ _ _); simpl; repeat split; eauto.
Qed.

Lemma question_is_stored_witness :
  user_states
    (after (handle_messages Sample.offline
              (Sample.text_message "Will X happen?"))
       (after (send_spark Sample.offline (Sample.text_message "/sendspark"))
          initial)) =
  <[7 := STATE_DESCRIPTION]>
    (user_states
       (after (send_spark Sample.offline (Sample.text_message "/sendspark"))
          initial)).
Proof.
  apply (question_is_stored Sample.offline
           (Sample.text_message "Will X happen?")
           (after (send_spark Sample.offline
                     (Sample.text_message "/sendspark")) initial) ∅).
  - vm_compute. reflexivity.
  - vm_compute. reflexivity.
Defined.

(** X5. In [STATE_DESCRIPTION], the text is stored under [description]
    exactly as typed, the other fields are kept, the state becomes
    [STATE_IMAGE] and the user is asked for an image once.  The store is
    updated whether or not that reply is delivered. *)
Theorem description_is_stored (env : Env) (message : types.Message)
    (w : World) (d : gmap string string) :
  let user_id := types.id (types.from_user message) in
  let w' := after (handle_messages env message) w in
  user_states w !! user_id = Some STATE_DESCRIPTION ->
  user_data w !! user_id = Some d ->
  user_states w' = <[user_id := STATE_IMAGE]> (user_states w) /\
  user_data w' =
    <[user_id := <["description" := types.text message]> d]> (user_data w) /\
  exists delivered,
    trace w' =
    (trace w ++
     [mkEffect
        (SendMessage (types.chat_id (types.chat message))
           ask_image_text None None)
        delivered])%list.
Proof.
  intros user_id w' Hs Hd. subst w'.
  rewrite (handle_messages_session env message w _ Hs). fold user_id.
  change (STATE_DESCRIPTION =? STATE_QUESTION)%Z with false.
  change (STATE_DESCRIPTION =? STATE_DESCRIPTION)%Z with true. cbv iota.
  unfold mbind, M_bind. rewrite (field_setitem_stored _ _ _ _ _ Hd).
  unfold states_setitem, bot_send_message. simpl.
  destruct (delivers _ _ _); simpl; repeat split; eauto.
Qed.

Lemma description_is_stored_witness :
  let w :=
    polling Sample.offline
      [CommandSendspark (Sample.text_message "/sendspark");
       Text (Sample.text_message "Will X happen?")] initial in
  user_states
    (after (handle_messages Sample.offline
              (Sample.text_message "saw it on a forum")) w) =
  <[7 := STATE_IMAGE]> (user_states w).
Proof.
  cbv zeta.
  apply (description_is_stored Sample.offline
           (Sample.text_message "saw it on a forum")
           (polling Sample.offline
              [CommandSendspark (Sample.text_message "/sendspark");
               Text (Sample.text_message "Will X happen?")] initial)
           (<["question" := "Will X happen?"]> ∅)).
  - vm_compute. reflexivity.
  - vm_compute. reflexivity.
Defined.

(** ** A stored photo *)

(** The run of [finalize_question] on a session with a stored photo. *)
Lemma finalize_with_photo env message user_id has_image has_info w d fid :
  user_data w !! user_id = Some d ->
  d !! "image_id" = Some fid ->
  let run := finalize_question env message user_id has_image has_info w in
  let photo :=
    SendPhoto (ADMIN_USER_ID env) (FileId fid)
      (notification (types.from_user message) d has_info) in
  (fst run = Raise ApiException /\
   same_store w (snd run) /\
   trace (snd run) = (trace w ++ [mkEffect photo false])%list) \/
  (exists confirmed,
     fst run = (if confirmed : bool then Ok tt else Raise ApiException) /\
     trace (snd run) =
     (trace w ++
      [mkEffect photo true;
       mkEffect (call (confirmation message)) confirmed])%list).
Proof.
  intros Hd Hid. cbv zeta.
  rewrite (finalize_question_parts _ _ _ _ _ _ _ Hd).
  unfold notify_admin. rewrite Hid.
  unfold mbind, M_bind, bot_send_photo.
  destruct (delivers _ _ _); simpl.
  - right.
    match goal with
    | |- context [confirm_and_clear env message user_id ?w1] =>
        set (sent := w1);
        destruct (delivers env (trace sent) (call (confirmation message)))
          eqn:Hc
    end.
    + destruct (confirm_and_clear_delivered env message user_id sent Hc)
        as (-> & _ & _ & ->).
      exists true. subst sent. simpl. by rewrite <- app_assoc.
    + destruct (confirm_and_clear_failed env message user_id sent Hc)
        as (-> & _ & ->).
      exists false. subst sent. simpl. by rewrite <- app_assoc.
  - left. repeat split.
Qed.

(** X6. A stored photo takes precedence over a stored link.  On a
    session with [image_id] set, [finalize_question] sends that photo to
    the admin with the notification as caption, whether or not a link is
    stored too; nothing is fetched and no text goes to the admin.  If
    the photo is delivered the confirmation follows; if not, nothing
    else is sent. *)
Theorem stored_photo_wins (env : Env) (message : types.Message)
    (user_id : Z) (has_image has_info : bool) (w : World)
    (d : gmap string string) (fid : string) :
  user_data w !! user_id = Some d ->
  d !! "image_id" = Some fid ->
  let run := finalize_question env message user_id has_image has_info w in
  let photo :=
    SendPhoto (ADMIN_USER_ID env) (FileId fid)
      (notification (types.from_user message) d has_info) in
  exists delivered confirmed,
    trace (snd run) =
    (trace w ++
     mkEffect photo delivered ::
     (if delivered : bool
      then [mkEffect (call (confirmation message)) confirmed]
      else []))%list.
Proof.
  intros Hd Hid run photo. subst run photo.
  destruct (finalize_with_photo env message user_id has_image has_info
              w d fid Hd Hid) as [(_ & _ & Ht) | (confirmed & _ & Ht)].
  - by exists false, false.
  - by exists true, confirmed.
Qed.

Lemma stored_photo_wins_witness :
  exists delivered confirmed,
    trace
      (after (finalize_question Sample.reliable Sample.photo_message 7
                true false)
         (after (field_setitem 7 "image_url" "http://example.com/a.png")
            Sample.with_photo)) =
    (trace Sample.with_photo ++
     mkEffect
       (SendPhoto 99 (FileId "large")
          (notification Sample.alice
             (<["image_url" := "http://example.com/a.png"]>
                (Sample.session Sample.with_photo)) false))
       delivered ::
     (if delivered : bool
      then [mkEffect (call (confirmation Sample.photo_message)) confirmed]
      else []))%list.
Proof.
  apply (stored_photo_wins Sample.reliable Sample.photo_message 7 true false
           (after (field_setitem 7 "image_url" "http://example.com/a.png")
              Sample.with_photo)
           (<["image_url" := "http://example.com/a.png"]>
              (Sample.session Sample.with_photo)) "large").
  - vm_compute. reflexivity.
  - vm_compute. reflexivity.
Defined.

Lemma handle_photo_image env message w d largest :
  let user_id := types.id (types.from_user message) in
  user_states w !! user_id = Some STATE_IMAGE ->
  user_data w !! user_id = Some d ->
  last (types.photo message) = Some largest ->
  handle_photo env message w =
  finalize_question env message user_id true false
    (stored w user_id d "image_id" (types.file_id largest)).
Proof.
  intros user_id Hs Hd Hlast.
  unfold handle_photo, states_contains, states_getitem, last_item.
  fold user_id. unfold mbind at 1 2, M_bind at 1 2.
  cbv beta. rewrite Hs. cbn [is_some negb]. cbv beta iota. rewrite Hs.
  change (STATE_IMAGE =? STATE_IMAGE)%Z with true. cbv beta iota.
  rewrite Hlast. unfold mbind, M_bind, mret, M_ret. cbv beta iota.
  by rewrite (field_setitem_stored _ _ _ _ _ Hd).
Qed.

(** X7. In [STATE_IMAGE], a photo message stores the file id of its last
    size (the largest) and sends exactly that photo to the admin, with
    the question and the description as caption.  When the photo and the
    confirmation are delivered the session is gone; when one of them is
    not, the session stays in [STATE_IMAGE] with the file id stored. *)
Theorem photo_is_forwarded (env : Env) (message : types.Message)
    (w : World) (d : gmap string string) (largest : types.PhotoSize) :
  let user_id := types.id (types.from_user message) in
  let run := handle_photo env message w in
  let photo :=
    SendPhoto (ADMIN_USER_ID env) (FileId (types.file_id largest))
      (admin_header (types.from_user message)
         (default "No question provided" (d !! "question"))
         (default "No description provided" (d !! "description"))) in
  user_states w !! user_id = Some STATE_IMAGE ->
  user_data w !! user_id = Some d ->
  last (types.photo message) = Some largest ->
  (exists delivered confirmed,
     trace (snd run) =
     (trace w ++
      mkEffect photo delivered ::
      (if delivered : bool
       then [mkEffect (call (confirmation message)) confirmed]
       else []))%list) /\
  (fst run = Ok tt ->
   user_states (snd run) !! user_id = None /\
   user_data (snd run) !! user_id = None) /\
  (fst run <> Ok tt ->
   user_states (snd run) !! user_id = Some STATE_IMAGE /\
   user_data (snd run) !! user_id =
     Some (<["image_id" := types.file_id largest]> d)).
Proof.
  intros user_id run photo Hs Hd Hlast. subst run photo.
  rewrite (handle_photo_image env message w d largest Hs Hd Hlast).
  fold user_id.
  set (kept := stored w user_id d "image_id" (types.file_id largest)).
  assert (Hd' : user_data kept !! user_id =
                Some (<["image_id" := types.file_id largest]> d))
    by apply lookup_insert_eq.
  assert (Hnote : notification (types.from_user message)
                    (<["image_id" := types.file_id largest]> d) false =
                  admin_header (types.from_user message)
                    (default "No question provided" (d !! "question"))
                    (default "No description provided"
                       (d !! "description"))).
  { unfold notification. by rewrite !lookup_insert_ne by discriminate. }
  split; [| split].
  - destruct (finalize_with_photo env message user_id true false kept _
                (types.file_id largest) Hd' (lookup_insert_eq _ _ _))
      as [(_ & _ & Ht) | (confirmed & _ & Ht)];
      rewrite Hnote in Ht.
    + by exists false, false.
    + by exists true, confirmed.
  - intros Hok.
    pose proof (finalize_question_store env message user_id true false
                  kept _ Hd') as H.
    cbv zeta in H. destruct H as [(_ & -> & -> & _) | (Hraise & _)].
    + by rewrite !lookup_delete_eq.
    + rewrite Hraise in Hok. discriminate.
  - intros Hbad.
    pose proof (finalize_question_store env message user_id true false
                  kept _ Hd') as H.
    cbv zeta in H. destruct H as [(Hok & _) | (_ & -> & ->)].
    + contradiction.
    + split; [exact Hs | exact Hd'].
Qed.

Lemma photo_is_forwarded_witness :
  user_states
    (after (handle_photo Sample.photo_fails Sample.photo_message)
       Sample.awaiting_image) !! 7 = Some STATE_IMAGE.
Proof.
  destruct (photo_is_forwarded Sample.photo_fails Sample.photo_message
              Sample.awaiting_image (Sample.session Sample.awaiting_image)
              (types.mkPhotoSize "large")) as (_ & _ & H).
  - vm_compute. reflexivity.
  - vm_compute. reflexivity.
  - reflexivity.
  - apply H. vm_compute. discriminate.
Defined.

(** ** All or nothing *)

(** X8. [finalize_question] is all or nothing on the store.  Either it
    returns, both entries of the user are deleted and the confirmation
    is the last effect; or it raises [ApiException] on a session that
    exists and leaves both dictionaries as they were, so the session is
    still there to be answered again; or there is no entry in
    [user_data], it raises [KeyError] and nothing at all happened. *)
Theorem finalize_all_or_nothing (env : Env) (message : types.Message)
    (user_id : Z) (has_image has_info : bool) (w : World) :
  let run := finalize_question env message user_id has_image has_info w in
  (fst run = Ok tt /\
   user_states (snd run) = delete user_id (user_states w) /\
   user_data (snd run) = delete user_id (user_data w) /\
   exists effects,
     trace (snd run) = (trace w ++ effects ++ [confirmation message])%list) \/
  (fst run = Raise ApiException /\
   is_Some (user_data w !! user_id) /\
   same_store w (snd run)) \/
  (fst run = Raise KeyError /\
   user_data w !! user_id = None /\
   snd run = w).
Proof.
  cbv zeta. destruct (user_data w !! user_id) as [d|] eqn:Hd.
  - pose proof (finalize_question_store env message user_id has_image
                  has_info w d Hd) as H.
    cbv zeta in H. destruct H as [H | [Hraise Hsame]].
    + by left.
    + right. left. eauto.
  - right. right.
    by rewrite (finalize_question_no_data _ _ _ _ _ _ Hd).
Qed.

(** ** The link, case by case *)

(** X9. With a link and no photo stored, when the fetch answers 200 and
    the photo is delivered, the admin gets the downloaded bytes as a
    photo whose caption is the notification followed by the line with
    the link; no text is sent to the admin, and the confirmation
    follows. *)
Theorem url_download_is_forwarded (env : Env) (message : types.Message)
    (user_id : Z) (has_image has_info : bool) (w : World)
    (d : gmap string string) (url : string) (r : Response) :
  let caption :=
    notification (types.from_user message) d has_info +:+ image_url_line url
  in
  let fetched := (trace w ++ [mkEffect (RequestsGet url) true])%list in
  let photo :=
    SendPhoto (ADMIN_USER_ID env) (BytesIO (content r)) caption in
  user_data w !! user_id = Some d ->
  d !! "image_id" = None ->
  d !! "image_url" = Some url ->
  requests_get env (trace w) url = Some r ->
  status_code r = 200 ->
  delivers env fetched photo = true ->
  exists confirmed,
    trace
      (after (finalize_question env message user_id has_image has_info) w) =
    (fetched ++
     [mkEffect photo true;
      mkEffect (call (confirmation message)) confirmed])%list.
Proof.
  intros caption fetched photo Hd Hid Hurl Hget H200 Hsend.
  rewrite (finalize_question_then _ _ _ _ _ _ _ Hd).
  assert (Hstep : notify_admin env d
                    (notification (types.from_user message) d has_info) w =
                  (Ok tt,
                   log_effect photo true
                     (log_effect (RequestsGet url) true w))).
  { unfold notify_admin. rewrite Hid, Hurl.
    unfold try_except, mbind, M_bind, requests_dot_get, bot_send_photo.
    rewrite Hget. simpl. rewrite H200. simpl.
    fold caption fetched photo. by rewrite Hsend. }
  rewrite Hstep. simpl.
  destruct (confirm_and_clear_trace env message user_id
              (log_effect photo true (log_effect (RequestsGet url) true w)))
    as [confirmed ->].
  exists confirmed. simpl. subst fetched. by rewrite <- !app_assoc.
Qed.

Lemma url_download_is_forwarded_witness :
  exists confirmed,
    trace
      (after (finalize_question Sample.reliable
                (Sample.text_message "http://example.com/a.png") 7 true
                false) Sample.with_url) =
    ((trace Sample.with_url ++
      [mkEffect (RequestsGet "http://example.com/a.png") true]) ++
     [mkEffect
        (SendPhoto 99 (BytesIO "png")
           (notification Sample.alice (Sample.session Sample.with_url) false
            +:+ image_url_line "http://example.com/a.png"))
        true;
      mkEffect
        (call (confirmation
                 (Sample.text_message "http://example.com/a.png")))
        confirmed])%list.
Proof.
  apply (url_download_is_forwarded Sample.reliable
           (Sample.text_message "http://example.com/a.png") 7 true false
           Sample.with_url (Sample.session Sample.with_url)
           "http://example.com/a.png" (mkResponse 200 "png")).
  - vm_compute. reflexivity.
  - vm_compute. reflexivity.
  - vm_compute. reflexivity.
  - reflexivity.
  - reflexivity.
  - reflexivity.
Defined.

(** X10. With a link and no photo stored, when the fetch answers 200 but
    the photo is not delivered, the failure is logged and the same text
    (notification and line with the link) is sent to the admin as a
    plain message; the confirmation follows if that message is
    delivered. *)
Theorem url_photo_failure_falls_back (env : Env) (message : types.Message)
    (user_id : Z) (has_image has_info : bool) (w : World)
    (d : gmap string string) (url : string) (r : Response) :
  let caption :=
    notification (types.from_user message) d has_info +:+ image_url_line url
  in
  let fetched := (trace w ++ [mkEffect (RequestsGet url) true])%list in
  let photo :=
    SendPhoto (ADMIN_USER_ID env) (BytesIO (content r)) caption in
  let text := SendMessage (ADMIN_USER_ID env) caption None None in
  user_data w !! user_id = Some d ->
  d !! "image_id" = None ->
  d !! "image_url" = Some url ->
  requests_get env (trace w) url = Some r ->
  status_code r = 200 ->
  delivers env fetched photo = false ->
  exists sent confirmed,
    trace
      (after (finalize_question env message user_id has_image has_info) w) =
    (fetched ++
     [mkEffect photo false; mkEffect LoggerError true; mkEffect text sent] ++
     (if sent : bool
      then [mkEffect (call (confirmation message)) confirmed]
      else []))%list.
Proof.
  intros caption fetched photo text Hd Hid Hurl Hget H200 Hsend.
  rewrite (finalize_question_then _ _ _ _ _ _ _ Hd).
  set (logged := log_effect LoggerError true
                   (log_effect photo false
                      (log_effect (RequestsGet url) true w))).
  assert (Hstep : notify_admin env d
                    (notification (types.from_user message) d has_info) w =
                  bot_send_message env (ADMIN_USER_ID env) caption None None
                    logged).
  { unfold notify_admin. rewrite Hid, Hurl.
    unfold try_except, mbind, M_bind, requests_dot_get, bot_send_photo,
      logger_error.
    rewrite Hget. simpl. rewrite H200. simpl.
    fold caption fetched photo. by rewrite Hsend. }
  rewrite Hstep. unfold bot_send_message. fold text.
  destruct (delivers env (trace logged) text); simpl.
  - destruct (confirm_and_clear_trace env message user_id
                (log_effect text true logged)) as [confirmed ->].
    exists true, confirmed. subst logged fetched. simpl.
    by rewrite <- !app_assoc.
  - exists false, false. subst logged fetched. simpl.
    by rewrite <- !app_assoc.
Qed.

Lemma url_photo_failure_falls_back_witness :
  exists sent confirmed,
    trace
      (after (finalize_question Sample.photo_fails
                (Sample.text_message "http://example.com/a.png") 7 true
                false) Sample.with_url) =
    ((trace Sample.with_url ++
      [mkEffect (RequestsGet "http://example.com/a.png") true]) ++
     [mkEffect
        (SendPhoto 99 (BytesIO "png")
           (notification Sample.alice (Sample.session Sample.with_url) false
            +:+ image_url_line "http://example.com/a.png"))
        false;
      mkEffect LoggerError true;
      mkEffect
        (SendMessage 99
           (notification Sample.alice (Sample.session Sample.with_url) false
            +:+ image_url_line "http://example.com/a.png") None None)
        sent] ++
     (if sent : bool
      then [mkEffect
              (call (confirmation
                       (Sample.text_message "http://example.com/a.png")))
              confirmed]
      else []))%list.
Proof.
  apply (url_photo_failure_falls_back Sample.photo_fails
           (Sample.text_message "http://example.com/a.png") 7 true false
           Sample.with_url (Sample.session Sample.with_url)
           "http://example.com/a.png" (mkResponse 200 "png")).
  - vm_compute. reflexivity.
  - vm_compute. reflexivity.
  - vm_compute. reflexivity.
  - reflexivity.
  - reflexivity.
  - reflexivity.
Defined.



(** ** A whole submission *)

Lemma send_spark_store env message w :
  let user_id := types.id (types.from_user message) in
  user_states (after (send_spark env message) w) =
    <[user_id := STATE_QUESTION]> (user_states w) /\
  user_data (after (send_spark env message) w) =
    <[user_id := ∅]> (user_data w).
Proof.
  unfold send_spark, bot_send_message; unfold_monad; simpl.
  by destruct (delivers _ _ _).
Qed.

Lemma handle_messages_store_question env message w d :
  let user_id := types.id (types.from_user message) in
  user_states w !! user_id = Some STATE_QUESTION ->
  user_data w !! user_id = Some d ->
  user_states (after (handle_messages env message) w) =
    <[user_id := STATE_DESCRIPTION]> (user_states w) /\
  user_data (after (handle_messages env message) w) =
    <[user_id := <["question" := types.text message]> d]> (user_data w).
Proof.
  intros user_id Hs Hd.
  rewrite (handle_messages_session env message w _ Hs). fold user_id.
  change (STATE_QUESTION =? STATE_QUESTION)%Z with true. cbv iota.
  unfold mbind, M_bind. rewrite (field_setitem_stored _ _ _ _ _ Hd).
  unfold states_setitem, bot_send_message. simpl.
  by destruct (delivers _ _ _).
Qed.

Lemma handle_messages_store_description env message w d :
  let user_id := types.id (types.from_user message) in
  user_states w !! user_id = Some STATE_DESCRIPTION ->
  user_data w !! user_id = Some d ->
  user_states (after (handle_messages env message) w) =
    <[user_id := STATE_IMAGE]> (user_states w) /\
  user_data (after (handle_messages env message) w) =
    <[user_id := <["description" := types.text message]> d]> (user_data w).
Proof.
  intros user_id Hs Hd.
  rewrite (handle_messages_session env message w _ Hs). fold user_id.
  change (STATE_DESCRIPTION =? STATE_QUESTION)%Z with false.
  change (STATE_DESCRIPTION =? STATE_DESCRIPTION)%Z with true. cbv iota.
  unfold mbind, M_bind. rewrite (field_setitem_stored _ _ _ _ _ Hd).
  unfold states_setitem, bot_send_message. simpl.
  by destruct (delivers _ _ _).
Qed.

(** [/sendspark], a text and another text of one user, from any store. *)
Lemma three_steps_store env w m0 m1 m2 :
  let user_id := types.id (types.from_user m0) in
  types.id (types.from_user m1) = user_id ->
  types.id (types.from_user m2) = user_id ->
  let w3 := polling env [CommandSendspark m0; Text m1; Text m2] w in
  user_states w3 !! user_id = Some STATE_IMAGE /\
  user_data w3 !! user_id =
    Some (<["description" := types.text m2]>
            (<["question" := types.text m1]> ∅)).
Proof.
  intros user_id H1 H2 w3. subst w3.
  unfold polling. simpl. unfold process. simpl.
  destruct (send_spark_store env m0 w) as [Hs1 Hd1]. fold user_id in Hs1, Hd1.
  set (w1 := after (send_spark env m0) w) in *.
  assert (Hs1' : user_states w1 !! types.id (types.from_user m1)
                 = Some STATE_QUESTION)
    by (rewrite H1, Hs1; apply lookup_insert_eq).
  assert (Hd1' : user_data w1 !! types.id (types.from_user m1) = Some ∅)
    by (rewrite H1, Hd1; apply lookup_insert_eq).
  destruct (handle_messages_store_question env m1 w1 ∅ Hs1' Hd1')
    as [Hs2 Hd2]. rewrite H1 in Hs2, Hd2.
  set (w2 := after (handle_messages env m1) w1) in *.
  assert (Hs2' : user_states w2 !! types.id (types.from_user m2)
                 = Some STATE_DESCRIPTION)
    by (rewrite H2, Hs2; apply lookup_insert_eq).
  assert (Hd2' : user_data w2 !! types.id (types.from_user m2)
                 = Some (<["question" := types.text m1]> ∅))
    by (rewrite H2, Hd2; apply lookup_insert_eq).
  destruct (handle_messages_store_description env m2 w2 _ Hs2' Hd2')
    as [Hs3 Hd3]. rewrite H2 in Hs3, Hd3.
  rewrite Hs3, Hd3. by rewrite !lookup_insert_eq.
Qed.

(** X12. What the user types is what is stored.  From any store and
    whatever the network does, [/sendspark] followed by two texts of the
    same user leaves that user in [STATE_IMAGE] with exactly two fields:
    [question] is the first text and [description] the second, as
    typed. *)
Theorem typed_fields_are_stored (env : Env) (w : World)
    (m0 m1 m2 : types.Message) :
  let user_id := types.id (types.from_user m0) in
  types.id (types.from_user m1) = user_id ->
  types.id (types.from_user m2) = user_id ->
  let w3 := polling env [CommandSendspark m0; Text m1; Text m2] w in
  user_states w3 !! user_id = Some STATE_IMAGE /\
  user_data w3 !! user_id =
    Some (<["description" := types.text m2]>
            (<["question" := types.text m1]> ∅)).
Proof. exact (three_steps_store env w m0 m1 m2). Qed.

Lemma typed_fields_are_stored_witness :
  user_states
    (polling Sample.offline
       [CommandSendspark (Sample.text_message "/sendspark");
        Text (Sample.text_message "Will X happen?");
        Text (Sample.text_message "saw it on a forum")]
       Sample.with_photo) !! 7 = Some STATE_IMAGE.
Proof.
  apply (typed_fields_are_stored Sample.offline Sample.with_photo
           (Sample.text_message "/sendspark")
           (Sample.text_message "Will X happen?")
           (Sample.text_message "saw it on a forum")); reflexivity.
Defined.

(** X13. A whole submission without image.  From any store, when the
    text sends are delivered, [/sendspark], a question, a description and
    a skip keyword of one user make the bot send the admin one text, the
    header built from the sender, the question and the description as
    typed, then the confirmation to the user; after that the user has no
    session. *)
Theorem submission_reaches_admin (env : Env) (w : World)
    (m0 m1 m2 m3 : types.Message) :
  let user_id := types.id (types.from_user m0) in
  let w3 := polling env [CommandSendspark m0; Text m1; Text m2] w in
  let w4 := process env w3 (Text m3) in
  types.id (types.from_user m1) = user_id ->
  types.id (types.from_user m2) = user_id ->
  types.id (types.from_user m3) = user_id ->
  lower (types.text m3) ∈ skip_keywords ->
  texts_delivered env ->
  trace w4 =
    (trace w3 ++
     [mkEffect
        (SendMessage (ADMIN_USER_ID env)
           (admin_header (types.from_user m3) (types.text m1)
              (types.text m2))
           None None)
        true;
      confirmation m3])%list /\
  user_states w4 !! user_id = None /\
  user_data w4 !! user_id = None.
Proof.
  intros user_id w3 w4 H1 H2 H3 Hskip Ht.
  destruct (three_steps_store env w m0 m1 m2 H1 H2) as [Hs Hd].
  fold user_id w3 in Hs, Hd. subst w4. unfold process. simpl.
  rewrite <- H3 in Hs, Hd.
  rewrite (handle_messages_image env m3 w3 Hs).
  rewrite bool_decide_eq_true_2 by exact Hskip.
  rewrite (finalize_question_then _ _ _ _ _ _ _ Hd).
  rewrite notify_admin_no_image
    by (by rewrite !lookup_insert_ne, lookup_empty by discriminate).
  unfold notification.
  rewrite lookup_insert_eq, lookup_insert_ne, lookup_insert_eq
    by discriminate.
  rewrite send_message_outcome, send_message_after, Ht. cbv iota.
  change (default "No question provided" (Some (types.text m1)))
    with (types.text m1).
  change (default "No description provided" (Some (types.text m2)))
    with (types.text m2).
  set (note := SendMessage (ADMIN_USER_ID env)
                 (admin_header (types.from_user m3) (types.text m1)
                    (types.text m2)) None None).
  destruct (confirm_and_clear_delivered env m3
              (types.id (types.from_user m3)) (log_effect note true w3)
              (Ht _ _ _ _ _)) as (_ & -> & -> & ->).
  simpl. rewrite <- app_assoc, H3, !lookup_delete_eq. by repeat split.
Qed.

Lemma submission_reaches_admin_witness :
  user_data
    (process Sample.reliable
       (polling Sample.reliable
          [CommandSendspark (Sample.text_message "/sendspark");
           Text (Sample.text_message "Will X happen?");
           Text (Sample.text_message "saw it on a forum")] initial)
       (Text (Sample.text_message "None"))) !! 7 = None.
Proof.
  apply (submission_reaches_admin Sample.reliable initial
           (Sample.text_message "/sendspark")
           (Sample.text_message "Will X happen?")
           (Sample.text_message "saw it on a forum")
           (Sample.text_message "None")); try reflexivity.
  - apply (bool_decide_eq_true_1 _). vm_compute. reflexivity.
  - intros tr chat_id text markup mode. reflexivity.
Defined.

(** ** Every text is answered *)

Ltac pick_send :=
  simpl;
  first
    [ split; [apply list_elem_of_here | reflexivity]
    | split; [apply list_elem_of_further, list_elem_of_here | reflexivity]
    | split; [apply list_elem_of_further, list_elem_of_further,
              list_elem_of_here | reflexivity] ].

(** Step 2 always tries to send something to the admin. *)
Lemma notify_admin_sends env d admin_message w :
  exists effects e,
    trace (after (notify_admin env d admin_message) w) =
    (trace w ++ effects)%list /\
    e ∈ effects /\
    is_send (call e) = true.
Proof.
  unfold notify_admin, bot_send_photo, bot_send_message, requests_dot_get,
    logger_error.
  unfold_monad.
  destruct (d !! "image_id"); simpl.
  { destruct (delivers _ _ _); eexists [_], _;
      (split; [reflexivity | pick_send]). }
  destruct (d !! "image_url"); simpl.
  2:{ destruct (delivers _ _ _); eexists [_], _;
        (split; [reflexivity | pick_send]). }
  destruct (requests_get _ _ _) as [r|]; simpl.
  2:{ destruct (delivers _ _ _); simpl; eexists _, _;
        (split; [by rewrite <- !app_assoc | pick_send]). }
  destruct (status_code r =? 200)%Z; simpl;
    repeat match goal with
           | |- context [delivers ?e ?t ?c] =>
               destruct (delivers e t c) eqn:?; simpl
           end;
    eexists _, _; (split; [by rewrite <- !app_assoc | pick_send]).
Qed.

Lemma finalize_question_sends env message user_id has_image has_info w :
  is_Some (user_data w !! user_id) ->
  exists effects e,
    trace
      (after (finalize_question env message user_id has_image has_info) w) =
    (trace w ++ effects)%list /\
    e ∈ effects /\
    is_send (call e) = true.
Proof.
  intros [d Hd].
  destruct (finalize_question_after_notify env message user_id has_image
              has_info w d Hd) as [tail ->].
  destruct (notify_admin_sends env d
              (notification (types.from_user message) d has_info) w)
    as (effects & e & -> & He & Hsend).
  exists (effects ++ tail)%list, e.
  split; [by rewrite <- app_assoc |].
  split; [apply elem_of_app; by left | exact Hsend].
Qed.

(** X14. No text is ignored.  In any store the handlers can produce from
    the empty one, a text makes the bot attempt at least one send (a
    [send_message] or a [send_photo]): the prompt to use [/sendspark],
    the next question, or the notification to the admin.  The silent end
    of the [if]/[elif] chain of [handle_messages] and its [KeyError]s
    are never reached. *)
Theorem text_is_always_answered (env : Env) (us : list Update)
    (message : types.Message) :
  let w := polling env us initial in
  exists effects e,
    trace (after (handle_messages env message) w) =
    (trace w ++ effects)%list /\
    e ∈ effects /\
    is_send (call e) = true.
Proof.
  intros w.
  assert (Hw : well_formed w)
    by apply polling_well_formed, initial_well_formed.
  destruct Hw as [Hk Hok].
  set (user_id := types.id (types.from_user message)).
  destruct (user_states w !! user_id) as [s|] eqn:Hs.
  2:{ rewrite (handle_messages_no_session env message w Hs).
      rewrite send_message_after. eexists [_], _.
      split; [reflexivity | pick_send]. }
  destruct (proj1 (Hk user_id)) as [d Hd]; [by rewrite Hs |].
  destruct (Hok _ _ _ Hs Hd) as ([-> | [-> | ->]] & _).
  - rewrite (handle_messages_session env message w _ Hs). fold user_id.
    change (STATE_QUESTION =? STATE_QUESTION)%Z with true. cbv iota.
    unfold mbind, M_bind. rewrite (field_setitem_stored _ _ _ _ _ Hd).
    unfold states_setitem, bot_send_message. simpl.
    destruct (delivers _ _ _); eexists [_], _;
      (split; [reflexivity | pick_send]).
  - rewrite (handle_messages_session env message w _ Hs). fold user_id.
    change (STATE_DESCRIPTION =? STATE_QUESTION)%Z with false.
    change (STATE_DESCRIPTION =? STATE_DESCRIPTION)%Z with true. cbv iota.
    unfold mbind, M_bind. rewrite (field_setitem_stored _ _ _ _ _ Hd).
    unfold states_setitem, bot_send_message. simpl.
    destruct (delivers _ _ _); eexists [_], _;
      (split; [reflexivity | pick_send]).
  - rewrite (handle_messages_image env message w Hs). fold user_id.
    destruct (bool_decide _).
    { apply finalize_question_sends. by rewrite Hd. }
    destruct (startswith_any _ _);
      unfold mbind, M_bind at 1;
      rewrite (field_setitem_stored _ _ _ _ _ Hd);
      match goal with
      | |- context [finalize_question env message user_id ?a ?b ?w'] =>
          apply (finalize_question_sends env message user_id a b w'),
            stored_has_data
      end.
Qed.

(** X15. In any store the handlers can produce from the empty one, a
    stored state is one of the three constants, the user has an entry in
    [user_data] too, and from [STATE_DESCRIPTION] on that entry holds
    the question. *)
Theorem reachable_sessions (env : Env) (us : list Update) (user_id : Z)
    (s : Z) :
  let w := polling env us initial in
  user_states w !! user_id = Some s ->
  (s = STATE_QUESTION \/ s = STATE_DESCRIPTION \/ s = STATE_IMAGE) /\
  exists d,
    user_data w !! user_id = Some d /\
    (s <> STATE_QUESTION -> is_Some (d !! "question")).
Proof.
  intros w Hs.
  assert (Hw : well_formed w)
    by apply polling_well_formed, initial_well_formed.
  destruct Hw as [Hk Hok].
  destruct (proj1 (Hk user_id)) as [d Hd]; [by rewrite Hs |].
  destruct (Hok _ _ _ Hs Hd) as (Hstate & Hq & Hboth).
  split; [exact Hstate |]. exists d. split; [exact Hd |].
  intros Hne. destruct Hstate as [-> | [-> | ->]];
    [contradiction | by apply Hq | by apply Hboth].
Qed.

Lemma reachable_sessions_witness :
  exists d,
    user_data
      (polling Sample.offline
         [CommandSendspark (Sample.text_message "/sendspark");
          Text (Sample.text_message "Will X happen?")] initial) !! 7
    = Some d /\
    (STATE_DESCRIPTION <> STATE_QUESTION -> is_Some (d !! "question")).
Proof.
  apply (reachable_sessions Sample.offline
           [CommandSendspark (Sample.text_message "/sendspark");
            Text (Sample.text_message "Will X happen?")] 7
           STATE_DESCRIPTION).
  vm_compute. reflexivity.
Defined.

(** ** Nothing leaves the chat before the last step *)

Ltac one_reply :=
  eexists [_]; split; [reflexivity |]; split; [simpl; lia |];
  let e := fresh "e" in
  intros e ->%list_elem_of_singleton; by eexists _, _, _.

Ltac no_reply :=
  exists []; split; [by rewrite app_nil_r |]; split; [simpl; lia |];
  let e := fresh "e" in
  let He := fresh "He" in
  intros e He; by apply elem_of_nil in He.

(** X16. Only the last step reaches the admin.  An update that does not
    finalize (any command, and a text or a photo of a user who is not in
    [STATE_IMAGE]) makes at most one call, and that call is a text to
    the chat the update came from: nothing is fetched and nothing is
    sent elsewhere. *)
Theorem replies_stay_in_chat (env : Env) (u : Update) (w : World) :
  (forall m, u = Text m \/ u = Photo m ->
             user_states w !! sender u <> Some STATE_IMAGE) ->
  exists effects,
    trace (process env w u) = (trace w ++ effects)%list /\
    (List.length effects <= 1)%nat /\
    forall e, e ∈ effects ->
              sent_to (types.chat_id (types.chat (message_of u))) e.
Proof.
  intros Hstate. unfold process.
  destruct u as [m | m | m | m | m | m]; simpl.
  - unfold start. rewrite send_message_after. simpl. one_reply.
  - unfold help_command. rewrite send_message_after. simpl. one_reply.
  - unfold send_spark, states_setitem, data_setitem, mbind, M_bind.
    rewrite send_message_after. simpl. one_reply.
  - rewrite cancel_run, send_message_after. simpl. one_reply.
  - specialize (Hstate m (or_introl eq_refl)). unfold sender in Hstate.
    simpl in Hstate.
    set (user_id := types.id (types.from_user m)) in *.
    destruct (user_states w !! user_id) as [s|] eqn:Hs.
    2:{ rewrite (handle_messages_no_session env m w Hs), send_message_after.
        simpl. one_reply. }
    rewrite (handle_messages_session env m w s Hs). fold user_id.
    destruct (Z.eqb_spec s STATE_QUESTION) as [-> | H1];
      [| destruct (Z.eqb_spec s STATE_DESCRIPTION) as [-> | H2];
         [| destruct (Z.eqb_spec s STATE_IMAGE) as [-> | H3];
            [contradiction | simpl; no_reply]]];
      (destruct (user_data w !! user_id) as [d|] eqn:Hd;
       unfold mbind, M_bind;
       [ rewrite (field_setitem_stored _ _ _ _ _ Hd);
         unfold states_setitem; rewrite send_message_after; simpl; one_reply
       | rewrite (field_setitem_no_data _ _ _ _ Hd); simpl; no_reply ]).
  - specialize (Hstate m (or_intror eq_refl)). unfold sender in Hstate.
    simpl in Hstate.
    set (user_id := types.id (types.from_user m)) in *.
    destruct (user_states w !! user_id) as [s|] eqn:Hs.
    + assert (Hne : s <> STATE_IMAGE) by congruence.
      rewrite (handle_photo_wrong_state env m w s Hs Hne),
        send_message_after.
      simpl. one_reply.
    + rewrite (handle_photo_no_session env m w Hs), send_message_after.
      simpl. one_reply.
Qed.

Lemma replies_stay_in_chat_witness :
  exists effects,
    trace
      (process Sample.reliable initial
         (Text (Sample.text_message "http://example.com/a.png"))) =
    (trace initial ++ effects)%list /\
    (List.length effects <= 1)%nat /\
    forall e, e ∈ effects -> sent_to 7 e.
Proof.
  apply (replies_stay_in_chat Sample.reliable
           (Text (Sample.text_message "http://example.com/a.png")) initial).
  intros m _. vm_compute. discriminate.
Defined.

(** ** A skip keyword after a failed photo *)

(** X17. The [has_image] flag is not read: what is stored decides.  When
    a photo is still stored in a session in [STATE_IMAGE] (its send
    failed earlier), a skip keyword does not drop it: the stored photo
    is sent to the admin again, with the question and the description as
    caption. *)
Theorem skip_keyword_keeps_stored_photo (env : Env)
    (message : types.Message) (w : World) (d : gmap string string)
    (fid : string) :
  let user_id := types.id (types.from_user message) in
  let photo :=
    SendPhoto (ADMIN_USER_ID env) (FileId fid)
      (admin_header (types.from_user message)
         (default "No question provided" (d !! "question"))
         (default "No description provided" (d !! "description"))) in
  user_states w !! user_id = Some STATE_IMAGE ->
  user_data w !! user_id = Some d ->
  d !! "image_id" = Some fid ->
  lower (types.text message) ∈ skip_keywords ->
  exists delivered confirmed,
    trace (after (handle_messages env message) w) =
    (trace w ++
     mkEffect photo delivered ::
     (if delivered : bool
      then [mkEffect (call (confirmation message)) confirmed]
      else []))%list.
Proof.
  intros user_id photo Hs Hd Hid Hskip. subst photo.
  rewrite (handle_messages_image env message w Hs).
  rewrite bool_decide_eq_true_2 by exact Hskip. fold user_id.
  destruct (finalize_with_photo env message user_id false false w d fid
              Hd Hid) as [(_ & _ & Ht) | (confirmed & _ & Ht)].
  - by exists false, false.
  - by exists true, confirmed.
Qed.

Lemma skip_keyword_keeps_stored_photo_witness :
  let w := after (handle_photo Sample.photo_fails Sample.photo_message)
             Sample.awaiting_image in
  exists delivered confirmed,
    trace (after (handle_messages Sample.reliable (Sample.text_message "no"))
             w) =
    (trace w ++
     mkEffect
       (SendPhoto 99 (FileId "large")
          (admin_header Sample.alice
             (default "No question provided"
                (Sample.session w !! "question"))
             (default "No description provided"
                (Sample.session w !! "description"))))
       delivered ::
     (if delivered : bool
      then [mkEffect (call (confirmation (Sample.text_message "no")))
              confirmed]
      else []))%list.
Proof.
  cbv zeta.
  apply (skip_keyword_keeps_stored_photo Sample.reliable
           (Sample.text_message "no")
           (after (handle_photo Sample.photo_fails Sample.photo_message)
              Sample.awaiting_image)
           (Sample.session
              (after (handle_photo Sample.photo_fails Sample.photo_message)
                 Sample.awaiting_image))
           "large").
  - vm_compute. reflexivity.
  - vm_compute. reflexivity.
  - vm_compute. reflexivity.
  - apply (bool_decide_eq_true_1 _). vm_compute. reflexivity.
Defined.
